(** * Investment tracker: session store, route guard, list view, entry form

    A shallow embedding of the client logic of the application:
    - [AuthContext]   the session store ([AuthProvider], [usePersistentState]),
    - [App]           the route guard ([PrivateRoute]),
    - [Dashboard]     the list view (fetch, delete, totals row),
    - [NewInvestment] the multi-allocation entry form,
    together with the fragment of JavaScript they rely on ([Js]) and the
    hosted [investments] table with its row-level policies ([Supabase]). *)

From Stdlib Require Import ZArith Bool Ascii String List Lia.
From Stdlib Require Import Floats.SpecFloat.
From stdpp Require Import base option list strings gmap.

Local Open Scope string_scope.
Local Open Scope list_scope.
Local Open Scope nat_scope.

(** ** The JavaScript fragment used by the components *)

Module Js.

(** *** Numbers: IEEE 754 binary64, as [spec_float] with 53 bits of
    precision and exponents bounded by 1024. *)

Definition number : Type := spec_float.

Definition prec : Z := 53.
Definition emax : Z := 1024.

Definition NaN : number := S754_nan.
Definition zero : number := S754_zero false.

(** [x + y] *)
Definition add (x y : number) : number := SFadd prec emax x y.

(** [x <= y], [x > y]: false as soon as one side is NaN. *)
Definition le (x y : number) : bool := SFleb x y.
Definition gt (x y : number) : bool := SFltb y x.

(** The number denoted by an integer literal. *)
Definition of_Z (z : Z) : number := binary_normalize prec emax z 0 false.

(** ToBoolean on a number: NaN, +0 and -0 are falsy. *)
Definition truthy (x : number) : bool :=
  match x with
  | S754_nan | S754_zero _ => false
  | _ => true
  end.

(** [x || y] on numbers. *)
Definition or (x y : number) : number := if truthy x then x else y.

(** ToBoolean on a string: only the empty string is falsy. *)
Definition truthy_string (s : string) : bool :=
  match s with
  | EmptyString => false
  | String _ _ => true
  end.

(** [s || d] where [s] is a string or [undefined]. *)
Definition or_string (s : option string) (d : string) : string :=
  match s with
  | Some (String c r) => String c r
  | _ => d
  end.

(** *** parseFloat

    [parseFloat] skips leading white space, takes the longest prefix
    that is a StrDecimalLiteral (sign, then [Infinity] or decimal digits
    with an optional fraction and an optional exponent) and rounds its
    mathematical value to the nearest double, ties to even.  With no such
    prefix the result is NaN.  Strings are sequences of 8-bit characters
    here, so only the ASCII white space characters are recognised. *)

Definition is_white_space (c : ascii) : bool :=
  let n := nat_of_ascii c in
  (n =? 32)%nat || (n =? 9)%nat || (n =? 10)%nat ||
  (n =? 11)%nat || (n =? 12)%nat || (n =? 13)%nat.

Fixpoint trim_start (s : string) : string :=
  match s with
  | String c r => if is_white_space c then trim_start r else s
  | EmptyString => s
  end.

Definition digit_of (c : ascii) : option Z :=
  let n := nat_of_ascii c in
  if ((48 <=? n)%nat && (n <=? 57)%nat)%bool
  then Some (Z.of_nat n - 48)%Z else None.

(** Reads a maximal run of decimal digits: its value added to [10 * acc]
    digit by digit, the number of digits read, and the rest. *)
Fixpoint read_digits (s : string) (acc : Z) (count : nat)
  : Z * nat * string :=
  match s with
  | String c r =>
      match digit_of c with
      | Some d => read_digits r (10 * acc + d)%Z (S count)
      | None => (acc, count, s)
      end
  | EmptyString => (acc, count, s)
  end.

Definition strip_prefix (p s : string) : option string :=
  if String.prefix p s
  then Some (String.substring (String.length p)
               (String.length s - String.length p) s)
  else None.

(** ExponentPart: [e] or [E], an optional sign, at least one digit.
    When it is incomplete the literal ends before it. *)
Definition read_exponent (s : string) : Z :=
  match s with
  | String c r =>
      if (Ascii.eqb c "e" || Ascii.eqb c "E")%bool then
        let '(neg, r') :=
          match r with
          | String "-" r1 => (true, r1)
          | String "+" r1 => (false, r1)
          | _ => (false, r)
          end in
        let '(v, n, _) := read_digits r' 0%Z 0%nat in
        match n with
        | O => 0%Z
        | S _ => if (neg : bool) then (- v)%Z else v
        end
      else 0%Z
  | EmptyString => 0%Z
  end.

(** The double nearest to [m * 10 ^ e10], with sign [neg]. *)
Definition round_decimal (neg : bool) (m : Z) (e10 : Z) : number :=
  match (m * 10 ^ Z.max e10 0)%Z, (10 ^ Z.max (- e10) 0)%Z with
  | Zpos p, Zpos q =>
      SFdiv prec emax (S754_finite neg p 0) (S754_finite false q 0)
  | Z0, _ => S754_zero neg
  | _, _ => S754_nan
  end.

Definition parse_unsigned (neg : bool) (s : string) : number :=
  match strip_prefix "Infinity" s with
  | Some _ => S754_infinity neg
  | None =>
      let '(ip, ni, r1) := read_digits s 0%Z 0%nat in
      match r1 with
      | String "." r2 =>
          let '(m, n, r3) := read_digits r2 ip 0%nat in
          match ni, n with
          | O, O => S754_nan
          | _, _ => round_decimal neg m (read_exponent r3 - Z.of_nat n)
          end
      | _ =>
          match ni with
          | O => S754_nan
          | S _ => round_decimal neg ip (read_exponent r1)
          end
      end
  end.

Definition parseFloat (s : string) : number :=
  match trim_start s with
  | String "-" r => parse_unsigned true r
  | String "+" r => parse_unsigned false r
  | t => parse_unsigned false t
  end.

(** *** Error values

    What a [catch] clause or an [error] field can hold.  The components
    read [message] only after an [instanceof Error] test, so the model
    keeps the outcome of that test next to the message. *)

Record Thrown : Type := mkThrown {
  instanceof_Error : bool;
  message : string
}.

End Js.

(** ** The hosted service: identities and the [investments] table *)

Module Supabase.

Record User : Type := mkUser {
  id : string;
  email : string
}.

Record Session : Type := mkSession {
  access_token : string;
  user : User
}.

(** The object passed to [insert]: the columns the client provides. *)
Record Values : Type := mkValues {
  user_id : string;
  amount : Js.number;
  category : string;
  investment_date : string;
  notes : string
}.

(** A row of [investments]: the primary key, assigned by the table's
    default, and the provided columns (time stamps are left out). *)
Record Row : Type := mkRow {
  row_id : string;
  values : Values
}.

(** The service as the client sees it: the subject of the access token
    that accompanies every request, [auth.uid()], and the table. *)
Record Server : Type := mkServer {
  auth_uid : option string;
  investments : list Row
}.

Inductive Request : Type :=
| Insert (v : Values)          (* from("investments").insert([v]) *)
| DeleteEqId (x : string)      (* from("investments").delete().eq("id", x) *)
| SelectByDateDesc             (* select("*").order("investment_date", ...) *)
| AuthSignOut.                 (* auth.signOut() *)

(** What a request builder resolves to; it does not reject, failures
    arrive in [error]. *)
Record Response (A : Type) : Type := mkResponse {
  data : option A;
  error : option Js.Thrown
}.
Arguments mkResponse {A} _ _.
Arguments data {A} _.
Arguments error {A} _.

Definition double_quote : string := String (ascii_of_nat 34) EmptyString.

(** The error of an insert refused by the policy. Like every error in a
    response it is the parsed body, not an [Error] instance. *)
Definition policy_violation : Js.Thrown :=
  Js.mkThrown false
    ("new row violates row-level security policy for table "
       +:+ double_quote +:+ "investments" +:+ double_quote).

(** Policy "Users can create own investments":
    [WITH CHECK (auth.uid() = user_id)].  [fault] is a failure that the
    client cannot tell apart from inside (network, constraint), [new_id]
    the key drawn by [gen_random_uuid()]. *)
Definition insert (fault : option Js.Thrown) (new_id : string)
    (v : Values) (srv : Server) : Server * Response unit :=
  match fault with
  | Some e => (srv, mkResponse None (Some e))
  | None =>
      if decide (auth_uid srv = Some (user_id v))
      then (mkServer (auth_uid srv) (investments srv ++ [mkRow new_id v]),
            mkResponse None None)
      else (srv, mkResponse None (Some policy_violation))
  end.

(** Policy "Users can delete own investments":
    [USING (auth.uid() = user_id)]: the rows the filter selects among
    those the caller owns are removed; selecting none is not an error. *)
Definition delete_eq_id (fault : option Js.Thrown) (x : string)
    (srv : Server) : Server * Response unit :=
  match fault with
  | Some e => (srv, mkResponse None (Some e))
  | None =>
      (mkServer (auth_uid srv)
         (filter (λ r, ¬ (row_id r = x ∧ auth_uid srv = Some (user_id (values r))))
                 (investments srv)),
       mkResponse None None)
  end.

(** What the service does to the requests of one handler call, beyond
    the client's control: which of them fail, and the keys it draws. *)
Record Env : Type := mkEnv {
  fault : nat -> option Js.Thrown;
  gen_random_uuid : nat -> string
}.

(** The requests of a batch, numbered from [k]; responses are listed in
    the order of the requests, as [Promise.all] does. *)
Fixpoint insert_all (env : Env) (k : nat) (vs : list Values) (srv : Server)
  : Server * list (Response unit) :=
  match vs with
  | [] => (srv, [])
  | v :: vs' =>
      let '(srv1, r) := insert (fault env k) (gen_random_uuid env k) v srv in
      let '(srv2, rs) := insert_all env (S k) vs' srv1 in
      (srv2, r :: rs)
  end.

End Supabase.

(** What a handler call leaves behind: the component state, the service,
    the requests it issued, and the route it navigated to, if any. *)
Record Outcome (S : Type) : Type := mkOutcome {
  state : S;
  server : Supabase.Server;
  issued : list Supabase.Request;
  navigated : option string
}.
Arguments mkOutcome {S} _ _ _ _.
Arguments state {S} _.
Arguments server {S} _.
Arguments issued {S} _.
Arguments navigated {S} _.

(** [err instanceof Error ? err.message : fallback] *)
Definition message_or (err : Js.Thrown) (fallback : string) : string :=
  if Js.instanceof_Error err then Js.message err else fallback.

(** The same test on a caught value that may be [null]. *)
Definition caught_message (err : option Js.Thrown) (fallback : string) : string :=
  match err with
  | Some e => message_or e fallback
  | None => fallback
  end.

(** ** contexts/AuthContext: the session store *)

Module AuthContext.

(** A string held by [localStorage], as far as the initialiser can
    observe it: empty (falsy), or what [JSON.parse] makes of it. *)
Inductive StoredText (T : Type) : Type :=
| EmptyText
| JsonText (v : T)
| BadText.                     (* JSON.parse throws *)
Arguments EmptyText {T}.
Arguments JsonText {T} _.
Arguments BadText {T}.

(** The initialiser of [usePersistentState]; [None] when it throws. *)
Definition usePersistentState {T : Type} (window_defined : bool)
    (localStorage : gmap string (StoredText T))
    (key : string) (initialValue : T) : option T :=
  if negb window_defined then Some initialValue
  else match localStorage !! key with
       | Some (JsonText v) => Some v
       | Some BadText => None
       | Some EmptyText | None => Some initialValue
       end.

(** The effect of [usePersistentState] as [AuthProvider] uses it, on a
    session or [null]: after a render in which the state has changed,
    [localStorage.setItem(key, JSON.stringify(state))]. A session reaches
    the client as JSON and [null] is written as the text null, so the text
    written is one that [JSON.parse] reads as the state. Other types of
    state (a number that is NaN, [undefined]) do not read back and are not
    covered. *)
Definition persist (key : string) (state : option Supabase.Session)
    (localStorage : gmap string (StoredText (option Supabase.Session)))
  : gmap string (StoredText (option Supabase.Session)) :=
  <[key := JsonText state]> localStorage.

(** The context value, without the [signOut] closure. *)
Record AuthContextType : Type := mkAuth {
  session : option Supabase.Session;
  user : option Supabase.User
}.

(** First render of [AuthProvider]. *)
Definition AuthProvider (window_defined : bool)
    (localStorage : gmap string (StoredText (option Supabase.Session)))
  : option AuthContextType :=
  s ← usePersistentState window_defined localStorage "session" None;
  Some (mkAuth s None).

(** [setSession(session); setUser(session?.user ?? null)] *)
Definition set_both (payload : option Supabase.Session) : AuthContextType :=
  mkAuth payload (Supabase.user <$> payload).

Inductive Event : Type :=
| getSession_resolved (payload : option Supabase.Session)
| onAuthStateChange (payload : option Supabase.Session)
| signOut.

(** The store after an event, and the request the event sends out. *)
Definition step (st : AuthContextType) (e : Event)
  : AuthContextType * list Supabase.Request :=
  match e with
  | getSession_resolved payload => (set_both payload, [])
  | onAuthStateChange payload => (set_both payload, [])
  | signOut => (st, [Supabase.AuthSignOut])
  end.

Definition run (st : AuthContextType) (es : list Event) : AuthContextType :=
  fold_left (λ s e, fst (step s e)) es st.

End AuthContext.

(** ** App: the route guard *)

Module App.

Inductive Element : Type :=
| children
| Navigate (to : string).

(** [session ? <>{children}</> : <Navigate to="/login" />] *)
Definition PrivateRoute (ctx : AuthContext.AuthContextType) : Element :=
  match AuthContext.session ctx with
  | Some _ => children
  | None => Navigate "/login"
  end.

(** The components that the routes mount. *)
Inductive Component : Type :=
| LoginPage
| RegistrationPage
| DashboardPage
| NewInvestmentPage.

(** What [<Routes>] renders for a location. *)
Inductive Matched : Type :=
| Mounted (c : Component)
| Redirected (to : string)
| NoMatch.

(** [<PrivateRoute><C /></PrivateRoute>] *)
Definition guarded (ctx : AuthContext.AuthContextType) (c : Component) : Matched :=
  match PrivateRoute ctx with
  | children => Mounted c
  | Navigate to => Redirected to
  end.

(** The route table of [App]; a location matches a route when it is the
    route's path as written. *)
Definition App (ctx : AuthContext.AuthContextType) (path : string) : Matched :=
  if decide (path = "/login") then Mounted LoginPage
  else if decide (path = "/register") then guarded ctx RegistrationPage
  else if decide (path = "/dashboard") then guarded ctx DashboardPage
  else if decide (path = "/new-investment") then guarded ctx NewInvestmentPage
  else if decide (path = "/") then Redirected "/dashboard"
  else NoMatch.

(** Following [<Navigate>] from a location, at most [fuel] times. *)
Fixpoint settle (fuel : nat) (ctx : AuthContext.AuthContextType) (path : string)
  : option Matched :=
  match App ctx path with
  | Redirected to =>
      match fuel with
      | O => None
      | S fuel' => settle fuel' ctx to
      end
  | m => Some m
  end.

(** The route table under a test [matches path location] for "the
    location matches the route with this path". [App] is the table under
    the literal test; the test of the router itself also accepts other
    spellings of a path, in another case or with slashes at the end. The
    routes are tried in the order written, which is immaterial when a
    location matches one route at most. *)
Definition App_by (matches : string → string → bool)
    (ctx : AuthContext.AuthContextType) (location : string) : Matched :=
  if matches "/login" location then Mounted LoginPage
  else if matches "/register" location then guarded ctx RegistrationPage
  else if matches "/dashboard" location then guarded ctx DashboardPage
  else if matches "/new-investment" location then guarded ctx NewInvestmentPage
  else if matches "/" location then Redirected "/dashboard"
  else NoMatch.

Fixpoint settle_by (matches : string → string → bool) (fuel : nat)
    (ctx : AuthContext.AuthContextType) (location : string) : option Matched :=
  match App_by matches ctx location with
  | Redirected to =>
      match fuel with
      | O => None
      | S fuel' => settle_by matches fuel' ctx to
      end
  | m => Some m
  end.

End App.

(** ** components/Dashboard: the list view *)

Module Dashboard.

Record Investment : Type := mkInvestment {
  id : string;
  amount : Js.number;
  investment_date : string;
  category : string;
  notes : string
}.

Record State : Type := mkState {
  investments : list Investment;
  loading : bool;
  error : option string
}.

Definition initial : State := mkState [] true None.

(** [fetchInvestments], from the response of the select on. *)
Definition fetchInvestments
    (response : Supabase.Response (list Investment)) (st : State) : State :=
  match Supabase.error response with
  | Some err =>
      mkState (investments st) false (Some (message_or err "An error occurred"))
  | None =>
      mkState (default [] (Supabase.data response)) false (error st)
  end.

(** [deleteInvestment(id)] *)
Definition deleteInvestment (fault : option Js.Thrown) (x : string)
    (srv : Supabase.Server) (st : State) : Outcome State :=
  let '(srv', response) := Supabase.delete_eq_id fault x srv in
  let st' :=
    match Supabase.error response with
    | Some err =>
        mkState (investments st) (loading st)
                (Some (message_or err "An error occurred"))
    | None =>
        mkState (filter (λ item, id item ≠ x) (investments st))
                (loading st) (error st)
    end in
  mkOutcome st' srv' [Supabase.DeleteEqId x] None.

(** The rendered view, down to the parts the properties below read. *)
Record TotalsRow : Type := mkTotals {
  date_range : string;
  total : Js.number            (* before [toLocaleString] *)
}.

Inductive View : Type :=
| Spinner
| Page (banner : option string) (rows : list Investment)
       (placeholder : bool) (totals : option TotalsRow).

(** [`${x?.investment_date}`] *)
Definition date_text (x : option Investment) : string :=
  match x with
  | Some i => investment_date i
  | None => "undefined"
  end.

Definition totals_row (l : list Investment) : TotalsRow :=
  mkTotals
    (date_text (l !! (length l - 1)) +:+ " - " +:+ date_text (l !! 0))
    (fold_left (λ sum item, Js.add sum (amount item)) l Js.zero).

Definition totals_of (v : View) : option TotalsRow :=
  match v with
  | Spinner => None
  | Page _ _ _ totals => totals
  end.

Definition render (st : State) : View :=
  if loading st then Spinner
  else
    Page (match error st with
          | Some (String c m) => Some (String c m)
          | _ => None
          end)
         (investments st)
         (length (investments st) =? 0)%nat
         (if negb (length (investments st) =? 0)%nat
          then Some (totals_row (investments st)) else None).

End Dashboard.

(** ** components/NewInvestment: the entry form *)

Module NewInvestment.

Record CategoryAllocation : Type := mkAllocation {
  category : string;
  amount : string;
  notes : option string          (* [notes?: string] *)
}.

Inductive Field : Type := f_category | f_amount | f_notes.

Record FormData : Type := mkFormData { investmentDate : string }.

Record State : Type := mkState {
  loading : bool;
  error : option string;
  allocations : list CategoryAllocation;
  formData : FormData
}.

(** The state at form open; [today] stands for
    [new Date().toISOString().split("T")[0]]. *)
Definition initial (today : string) : State :=
  mkState false None [mkAllocation "" "" (Some "")] (mkFormData today).

Definition setAllocations (l : list CategoryAllocation) (st : State) : State :=
  mkState (loading st) (error st) l (formData st).

Definition setError (e : option string) (st : State) : State :=
  mkState (loading st) e (allocations st) (formData st).

Definition setLoading (b : bool) (st : State) : State :=
  mkState b (error st) (allocations st) (formData st).

(** [allocations.reduce((sum, a) => sum + (parseFloat(a.amount) || 0), 0)] *)
Definition totalAmount (st : State) : Js.number :=
  fold_left
    (λ sum allocation,
       Js.add sum (Js.or (Js.parseFloat (amount allocation)) Js.zero))
    (allocations st) Js.zero.

Definition handleAddAllocation (st : State) : State :=
  setAllocations (allocations st ++ [mkAllocation "" "" None]) st.

(** [l.filter((_, i) => keep(i))], counting from [i]. *)
Fixpoint filter_index {A : Type} (keep : nat -> bool) (i : nat) (l : list A)
  : list A :=
  match l with
  | [] => []
  | x :: l' =>
      if keep i then x :: filter_index keep (S i) l'
      else filter_index keep (S i) l'
  end.

Definition handleRemoveAllocation (index : nat) (st : State) : State :=
  if (length (allocations st) =? 1)%nat
  then setAllocations [mkAllocation "" "" None] st
  else setAllocations
         (filter_index (λ i, negb (i =? index)%nat) 0 (allocations st)) st.

(** [{ ...a, [field]: value }] *)
Definition with_field (field : Field) (value : string)
    (a : CategoryAllocation) : CategoryAllocation :=
  match field with
  | f_category => mkAllocation value (amount a) (notes a)
  | f_amount => mkAllocation (category a) value (notes a)
  | f_notes => mkAllocation (category a) (amount a) (Some value)
  end.

(** [handleAllocationChange]. The view calls it with the index of a
    rendered row. For an index past the end the source grows the array,
    leaving holes and an object without the other fields; lists of
    allocations have no such values, so the model stops there ([None]). *)
Definition handleAllocationChange (index : nat) (field : Field)
    (value : string) (st : State) : option State :=
  a ← allocations st !! index;
  Some (setAllocations (<[index := with_field field value a]> (allocations st)) st).

(** [onChange] of the date input. *)
Definition handleDateChange (value : string) (st : State) : State :=
  mkState (loading st) (error st) (allocations st) (mkFormData value).

(** The validation predicate of [handleSubmit]. *)
Definition invalid (alloc : CategoryAllocation) : bool :=
  negb (Js.truthy_string (category alloc))
  || negb (Js.truthy_string (amount alloc))
  || Js.le (Js.parseFloat (amount alloc)) Js.zero.

(** The object inserted for one allocation. *)
Definition investment_of (u : Supabase.User) (date : string)
    (allocation : CategoryAllocation) : Supabase.Values :=
  Supabase.mkValues
    (Supabase.id u)
    (Js.parseFloat (amount allocation))
    (category allocation)
    date
    (Js.or_string (notes allocation) "").

Definition handleSubmit (user : option Supabase.User) (env : Supabase.Env)
    (srv : Supabase.Server) (st : State) : Outcome State :=
  match user with
  | None =>
      mkOutcome (setError (Some "You must be logged in to add investments") st)
                srv [] None
  | Some u =>
      let invalidAllocations := existsb invalid (allocations st) in
      if invalidAllocations then
        mkOutcome
          (setError
             (Some "All categories must be selected and have a valid amount") st)
          srv [] None
      else
        let st1 := setError None (setLoading true st) in
        let investmentPromises :=
          map (investment_of u (investmentDate (formData st))) (allocations st) in
        let '(srv', results) := Supabase.insert_all env 0 investmentPromises srv in
        let insertErrors := filter (λ result, is_Some (Supabase.error result)) results in
        match insertErrors with
        | first :: _ =>
            (* throw insertErrors[0].error; catch; finally *)
            mkOutcome
              (setLoading false
                 (setError
                    (Some (caught_message (Supabase.error first)
                             "Failed to add investments. Please try again."))
                    st1))
              srv' (map Supabase.Insert investmentPromises) None
        | [] =>
            (* navigate("/dashboard"); finally *)
            mkOutcome (setLoading false st1)
              srv' (map Supabase.Insert investmentPromises) (Some "/dashboard")
        end
  end.

(** The events of the form, and the states they lead to. *)
Inductive Action : Type :=
| AddAllocation
| RemoveAllocation (index : nat)
| AllocationChange (index : nat) (field : Field) (value : string)
| DateChange (value : string)
| Submit (user : option Supabase.User) (env : Supabase.Env)
         (srv : Supabase.Server).

Definition step (st : State) (a : Action) : option State :=
  match a with
  | AddAllocation => Some (handleAddAllocation st)
  | RemoveAllocation index => Some (handleRemoveAllocation index st)
  | AllocationChange index field value =>
      handleAllocationChange index field value st
  | DateChange value => Some (handleDateChange value st)
  | Submit user env srv => Some (state (handleSubmit user env srv st))
  end.

Fixpoint run (st : State) (actions : list Action) : option State :=
  match actions with
  | [] => Some st
  | a :: rest => st' ← step st a; run st' rest
  end.

End NewInvestment.

(** ** src/components/NewInvestment: the form with a single investment *)

Module SimpleNewInvestment.

Record FormData : Type := mkFormData {
  amount : string;
  category : string;
  investmentDate : string;
  notes : string
}.

Record State : Type := mkState {
  loading : bool;
  error : option string;
  formData : FormData
}.

(** The state at form open; [today] as in the other form. *)
Definition initial (today : string) : State :=
  mkState false None (mkFormData "" "" today "").

Inductive Field : Type := f_amount | f_category | f_investmentDate | f_notes.

(** [setFormData({ ...formData, [field]: e.target.value })] *)
Definition handleChange (field : Field) (value : string) (st : State) : State :=
  let d := formData st in
  mkState (loading st) (error st)
    match field with
    | f_amount => mkFormData value (category d) (investmentDate d) (notes d)
    | f_category => mkFormData (amount d) value (investmentDate d) (notes d)
    | f_investmentDate => mkFormData (amount d) (category d) value (notes d)
    | f_notes => mkFormData (amount d) (category d) (investmentDate d) value
    end.

(** The object inserted. *)
Definition investment_of (u : Supabase.User) (d : FormData) : Supabase.Values :=
  Supabase.mkValues (Supabase.id u) (Js.parseFloat (amount d))
    (category d) (investmentDate d) (notes d).

Definition handleSubmit (user : option Supabase.User) (env : Supabase.Env)
    (srv : Supabase.Server) (st : State) : Outcome State :=
  match user with
  | None =>
      mkOutcome
        (mkState (loading st)
           (Some "You must be logged in to add investments") (formData st))
        srv [] None
  | Some u =>
      (* setLoading(true); setError(null) *)
      let v := investment_of u (formData st) in
      let '(srv', response) :=
        Supabase.insert (Supabase.fault env 0) (Supabase.gen_random_uuid env 0)
          v srv in
      match Supabase.error response with
      | Some insertError =>
          (* throw insertError; catch; finally *)
          mkOutcome
            (mkState false
               (Some (message_or insertError
                        "Failed to add investment. Please try again."))
               (formData st))
            srv' [Supabase.Insert v] None
      | None =>
          (* navigate('/dashboard'); finally *)
          mkOutcome (mkState false None (formData st))
            srv' [Supabase.Insert v] (Some "/dashboard")
      end
  end.

End SimpleNewInvestment.

(** ** Notions the statements below are phrased with *)

Module Spec.

(** The least exponent of a double, -1074. *)
Definition emin : Z := SpecFloat.emin Js.prec Js.emax.

(** A number whose exponent, if it is finite, is not below [emin]: every
    number that [parseFloat] and [+] produce is of this kind. *)
Definition in_range (x : Js.number) : Prop :=
  match x with
  | S754_finite _ _ e => (emin ≤ e)%Z
  | _ => True
  end.

(** The sum of a list of numbers, added up from the left. *)
Fixpoint sum_from (acc : Js.number) (l : list Js.number) : Js.number :=
  match l with
  | [] => acc
  | x :: l' => sum_from (Js.add acc x) l'
  end.

Definition sum (l : list Js.number) : Js.number := sum_from Js.zero l.

(** The amount of a draft, an amount that does not parse counting as 0. *)
Definition amount_or_zero (a : NewInvestment.CategoryAllocation) : Js.number :=
  match Js.parseFloat (NewInvestment.amount a) with
  | S754_nan => Js.zero
  | v => v
  end.

(** A draft with nothing entered; its notes are [""] or missing. *)
Definition empty_draft (a : NewInvestment.CategoryAllocation) : Prop :=
  NewInvestment.category a = "" ∧ NewInvestment.amount a = ""
  ∧ (NewInvestment.notes a = None ∨ NewInvestment.notes a = Some "").

(** A draft that the entry form accepts, in the words of the spec. *)
Definition valid_draft (a : NewInvestment.CategoryAllocation) : Prop :=
  NewInvestment.category a ≠ "" ∧ NewInvestment.amount a ≠ ""
  ∧ Js.gt (Js.parseFloat (NewInvestment.amount a)) Js.zero = true.

Definition offending_draft (a : NewInvestment.CategoryAllocation) : Prop :=
  NewInvestment.category a = "" ∨ NewInvestment.amount a = ""
  ∨ Js.le (Js.parseFloat (NewInvestment.amount a)) Js.zero = true.

(** The notes sent for a draft: its notes, or [""] without the field. *)
Definition notes_or_empty (a : NewInvestment.CategoryAllocation) : string :=
  match NewInvestment.notes a with
  | Some n => n
  | None => ""
  end.

(** The error of the first failed response, in the order of the requests. *)
Fixpoint first_failure (rs : list (Supabase.Response unit)) : option Js.Thrown :=
  match rs with
  | [] => None
  | r :: rs' =>
      match Supabase.error r with
      | Some e => Some e
      | None => first_failure rs'
      end
  end.

Definition succeeded (r : Supabase.Response unit) : Prop :=
  Supabase.error r = None.

(** The value of a field of a draft; nothing for notes that are missing. *)
Definition field_value (f : NewInvestment.Field)
    (a : NewInvestment.CategoryAllocation) : option string :=
  match f with
  | NewInvestment.f_category => Some (NewInvestment.category a)
  | NewInvestment.f_amount => Some (NewInvestment.amount a)
  | NewInvestment.f_notes => NewInvestment.notes a
  end.

(** The payload that an event hands to the store: the two callbacks hand
    one over, a call of [signOut] does not. *)
Definition delivered (e : AuthContext.Event) : option (option Supabase.Session) :=
  match e with
  | AuthContext.getSession_resolved payload => Some payload
  | AuthContext.onAuthStateChange payload => Some payload
  | AuthContext.signOut => None
  end.

(** A store whose user, when there is one, is the user of its session. *)
Definition consistent (st : AuthContext.AuthContextType) : Prop :=
  ∀ u, AuthContext.user st = Some u →
       ∃ s, AuthContext.session st = Some s ∧ Supabase.user s = u.

(** The rows that the policies let the caller see and delete. *)
Definition owned_by (uid : option string) (r : Supabase.Row) : Prop :=
  uid = Some (Supabase.user_id (Supabase.values r)).

#[global] Instance owned_by_dec (uid : option string) (r : Supabase.Row) :
  Decision (owned_by uid r).
Proof. unfold owned_by. apply _. Defined.

(** The list view shows the caller's rows: the same identifiers, in any
    order. *)
Definition in_sync (st : Dashboard.State) (srv : Supabase.Server) : Prop :=
  map Dashboard.id (Dashboard.investments st)
  ≡ₚ map Supabase.row_id
       (filter (owned_by (Supabase.auth_uid srv)) (Supabase.investments srv)).

(** An event that can follow the resolution of the mount-time fetch. *)
Definition after_mount (e : AuthContext.Event) : Prop :=
  match e with
  | AuthContext.getSession_resolved _ => False
  | _ => True
  end.

End Spec.

(** ** Sample data *)

Module Examples.

Definition alice : Supabase.User := Supabase.mkUser "u-1" "alice@example.org".

Definition alice_session : Supabase.Session := Supabase.mkSession "jwt-1" alice.

Definition signed_in : AuthContext.AuthContextType :=
  AuthContext.mkAuth (Some alice_session) (Some alice).

(** A local storage in which an earlier visit left a session. *)
Definition restored_storage
  : gmap string (AuthContext.StoredText (option Supabase.Session)) :=
  AuthContext.persist "session" (Some alice_session) ∅.

(** A test for routes that ignores case and slashes at the end. *)
Definition lower (c : ascii) : ascii :=
  let n := nat_of_ascii c in
  if ((65 <=? n) && (n <=? 90))%bool then ascii_of_nat (n + 32) else c.

Fixpoint normal (s : string) : string :=
  match s with
  | EmptyString => EmptyString
  | String c r =>
      match normal r with
      | EmptyString =>
          if Ascii.eqb c "/" then EmptyString else String (lower c) EmptyString
      | r' => String (lower c) r'
      end
  end.

Definition loose_match (path location : string) : bool :=
  String.eqb (normal path) (normal location).

(** The drafts of the spec's example, by their amounts. *)
Definition three_drafts : NewInvestment.State :=
  NewInvestment.mkState false None
    [NewInvestment.mkAllocation "Stocks" "10" (Some "");
     NewInvestment.mkAllocation "Bonds" "abc" None;
     NewInvestment.mkAllocation "ETFs" "5.5" None]
    (NewInvestment.mkFormData "2025-03-08").

(** Two drafts that pass validation, the second without notes. *)
Definition two_drafts : NewInvestment.State :=
  NewInvestment.mkState false None
    [NewInvestment.mkAllocation "Stocks" "100" (Some "monthly");
     NewInvestment.mkAllocation "Bonds" "250" None]
    (NewInvestment.mkFormData "2025-03-08").

(** The service, with alice's token and an empty table. *)
Definition alice_server : Supabase.Server := Supabase.mkServer (Some "u-1") [].

(** An error as the service reports it: the parsed body of the response. *)
Definition duplicate_key : Js.Thrown :=
  Js.mkThrown false "duplicate key value violates unique constraint".

Definition row_key (k : nat) : string :=
  match k with
  | 0 => "row-0"
  | 1 => "row-1"
  | _ => "row-n"
  end.

(** The second request of the batch fails. *)
Definition second_fails : Supabase.Env :=
  Supabase.mkEnv (λ k, if k =? 1 then Some duplicate_key else None) row_key.

(** The first request of the batch fails with an [Error] instance. *)
Definition first_throws : Supabase.Env :=
  Supabase.mkEnv
    (λ k, if k =? 0 then Some (Js.mkThrown true "Network request failed") else None)
    row_key.

Definition all_succeed : Supabase.Env :=
  Supabase.mkEnv (λ _, None) row_key.

(** A loaded list of two investments, the newer one first. *)
Definition march_2 : Dashboard.Investment :=
  Dashboard.mkInvestment "row-2" (Js.of_Z 100) "2025-03-02" "Stocks" "".
Definition march_1 : Dashboard.Investment :=
  Dashboard.mkInvestment "row-1" (Js.of_Z 250) "2025-03-01" "Bonds" "".

Definition loaded : Dashboard.State :=
  Dashboard.mkState [march_2; march_1] false None.

(** The table behind it, with a row of another user. *)
Definition shared_server : Supabase.Server :=
  Supabase.mkServer (Some "u-1")
    [Supabase.mkRow "row-2"
       (Supabase.mkValues "u-1" (Js.of_Z 100) "Stocks" "2025-03-02" "");
     Supabase.mkRow "row-1"
       (Supabase.mkValues "u-1" (Js.of_Z 250) "Bonds" "2025-03-01" "");
     Supabase.mkRow "row-9"
       (Supabase.mkValues "u-2" (Js.of_Z 7) "ETFs" "2025-02-01" "")].

(** 15.5, that is 31/2, as a double: 31 * 2^48 * 2^-49. *)
Definition fifteen_and_a_half : Js.number :=
  S754_finite false (31 * 2 ^ 48) (-49).

End Examples.

(** * Properties *)

(** ** Numbers *)

Section NumberFacts.

(** A number above zero is not at or below zero. *)
Lemma gt_zero_not_le (x : Js.number) :
  Js.gt x Js.zero = true → Js.le x Js.zero = false.
Proof.
  unfold Js.gt, Js.le, SFltb, SFleb, Js.zero.
  destruct x as [s| s | |s m e]; simpl; try done; by destruct s.
Qed.

Lemma parseFloat_empty : Js.parseFloat "" = Js.NaN.
Proof. reflexivity. Qed.

Example parseFloat_integer : Js.parseFloat "10" = Js.of_Z 10.
Proof. vm_compute. reflexivity. Qed.

Example parseFloat_letters : Js.parseFloat "abc" = Js.NaN.
Proof. vm_compute. reflexivity. Qed.

Example parseFloat_prefix : Js.parseFloat "  42px" = Js.of_Z 42.
Proof. vm_compute. reflexivity. Qed.

Example parseFloat_exponent : Js.parseFloat "1.5e3" = Js.of_Z 1500.
Proof. vm_compute. reflexivity. Qed.

Example parseFloat_negative_zero : Js.parseFloat "-0" = S754_zero true.
Proof. vm_compute. reflexivity. Qed.

Example parseFloat_half : Js.add (Js.parseFloat ".5") (Js.parseFloat "0.5") = Js.of_Z 1.
Proof. vm_compute. reflexivity. Qed.

(** Rounding shows: 0.1 + 0.2 is the double next above 0.3. *)
Example add_rounds :
  Js.add (Js.parseFloat "0.1") (Js.parseFloat "0.2")
  = Js.parseFloat "0.30000000000000004"
  ∧ Js.parseFloat "0.30000000000000004" ≠ Js.parseFloat "0.3".
Proof. vm_compute. split; done. Qed.

End NumberFacts.

(** ** Doubles: exponents stay in range, and sums are not negative zeros

    The two facts about [+] that the derived total needs. Rounding shifts
    a mantissa of [d] binary digits right by [d - 53] places at most when
    the exponent is not below [emin], so it never shifts the mantissa away:
    a sum that is not 0 exactly does not round to a zero. *)

Section Doubles.

Local Open Scope Z_scope.

Lemma shr_1_div2 (r : shr_record) :
  0 ≤ shr_m r → shr_m (shr_1 r) = Z.div2 (shr_m r).
Proof. destruct r as [[|[p|p|]|p] ? ?]; simpl; done. Qed.

Lemma iter_shr_1 (p : positive) (r : shr_record) :
  0 ≤ shr_m r → shr_m (SpecFloat.iter_pos shr_1 p r) = shr_m r / 2 ^ Zpos p.
Proof.
  revert r. induction p as [p IH|p IH|]; intros r Hr; cbn [SpecFloat.iter_pos].
  - assert (Hpow : 0 < 2 ^ Z.pos p) by (by apply Z.pow_pos_nonneg).
    assert (H1 : 0 ≤ shr_m (shr_1 r)).
    { rewrite shr_1_div2, Z.div2_div by done. by apply Z.div_pos. }
    assert (H2 : 0 ≤ shr_m (SpecFloat.iter_pos shr_1 p (shr_1 r))).
    { rewrite IH by done. by apply Z.div_pos. }
    rewrite !IH, shr_1_div2, Z.div2_div by done.
    rewrite !Z.div_div by lia.
    f_equal. rewrite <- Z.pow_add_r, <- Z.pow_succ_r by lia. f_equal. lia.
  - assert (Hpow : 0 < 2 ^ Z.pos p) by (by apply Z.pow_pos_nonneg).
    assert (H2 : 0 ≤ shr_m (SpecFloat.iter_pos shr_1 p r)).
    { rewrite IH by done. by apply Z.div_pos. }
    rewrite !IH by done.
    rewrite !Z.div_div by lia.
    f_equal. rewrite <- Z.pow_add_r by lia. f_equal. lia.
  - rewrite shr_1_div2, Z.div2_div by done. done.
Qed.

Lemma digits2_pos_lower (p : positive) :
  2 ^ (Zpos (digits2_pos p) - 1) ≤ Zpos p.
Proof.
  induction p as [p IH|p IH|]; simpl; [| |done].
  all: rewrite Pos2Z.inj_succ.
  all: replace (Z.succ (Z.pos (digits2_pos p)) - 1)
         with (1 + (Z.pos (digits2_pos p) - 1)) by lia.
  all: rewrite Z.pow_add_r by lia; lia.
Qed.

Lemma shr_record_of_loc_m (m : Z) (l : location) :
  shr_m (shr_record_of_loc m l) = m.
Proof. by destruct l as [|[| |]]. Qed.

Lemma shr_fexp_range (m e : Z) (l : location) :
  Spec.emin ≤ e → Spec.emin ≤ (shr_fexp Js.prec Js.emax m e l).2.
Proof.
  intros He. unfold shr_fexp, shr.
  destruct (fexp Js.prec Js.emax (Zdigits2 m + e) - e) as [|n|n] eqn:Hn; simpl; try done.
  unfold fexp in Hn. fold Spec.emin in Hn. lia.
Qed.

Lemma shr_fexp_positive (m e : Z) (l : location) :
  0 < m → Spec.emin ≤ e → 0 < shr_m (shr_fexp Js.prec Js.emax m e l).1.
Proof.
  intros Hm He. unfold shr_fexp, shr.
  destruct (fexp Js.prec Js.emax (Zdigits2 m + e) - e) as [|n|n] eqn:Hn; simpl;
    rewrite ?shr_record_of_loc_m; try done.
  rewrite iter_shr_1 by (rewrite shr_record_of_loc_m; lia).
  rewrite shr_record_of_loc_m.
  destruct m as [|p|p]; try done. simpl in Hn.
  unfold fexp in Hn. fold Spec.emin in Hn. unfold Js.prec in Hn.
  assert (Hd : Z.pos n = Z.pos (digits2_pos p) - 53) by lia.
  pose proof (digits2_pos_lower p) as Hlow.
  apply Z.div_str_pos. split; [by apply Z.pow_pos_nonneg|].
  etrans; [|exact Hlow]. apply Z.pow_le_mono_r; lia.
Qed.

Lemma round_nearest_even_lower (m : Z) (l : location) :
  m ≤ round_nearest_even m l.
Proof.
  destruct l as [|[| |]]; simpl; try lia. destruct (Z.even m); lia.
Qed.

Lemma binary_round_aux_range (s : bool) (m e : Z) (l : location) :
  Spec.emin ≤ e → Spec.in_range (binary_round_aux Js.prec Js.emax s m e l).
Proof.
  intros He. unfold binary_round_aux.
  pose proof (shr_fexp_range m e l He) as H1.
  destruct (shr_fexp Js.prec Js.emax m e l) as [mrs' e']. simpl in H1.
  pose proof (shr_fexp_range
                (round_nearest_even (shr_m mrs') (loc_of_shr_record mrs'))
                e' loc_Exact H1) as H2.
  destruct (shr_fexp Js.prec Js.emax _ e' loc_Exact) as [mrs'' e'']. simpl in H2.
  destruct (shr_m mrs''); simpl; try done.
  by destruct (e'' <=? Js.emax - Js.prec).
Qed.

Lemma binary_round_aux_nonzero (s s' : bool) (m e : Z) (l : location) :
  0 < m → Spec.emin ≤ e → binary_round_aux Js.prec Js.emax s m e l ≠ S754_zero s'.
Proof.
  intros Hm He. unfold binary_round_aux.
  pose proof (shr_fexp_range m e l He) as H1.
  pose proof (shr_fexp_positive m e l Hm He) as P1.
  destruct (shr_fexp Js.prec Js.emax m e l) as [mrs' e']. simpl in H1, P1.
  pose proof (round_nearest_even_lower (shr_m mrs') (loc_of_shr_record mrs')) as Hr.
  pose proof (shr_fexp_positive
                (round_nearest_even (shr_m mrs') (loc_of_shr_record mrs'))
                e' loc_Exact ltac:(lia) H1) as P2.
  destruct (shr_fexp Js.prec Js.emax _ e' loc_Exact) as [mrs'' e'']. simpl in P2.
  destruct (shr_m mrs''); simpl; try done.
  by destruct (e'' <=? Js.emax - Js.prec).
Qed.

Lemma binary_round_spec (s s' : bool) (p : positive) (e : Z) :
  Spec.emin ≤ e →
  Spec.in_range (binary_round Js.prec Js.emax s p e)
  ∧ binary_round Js.prec Js.emax s p e ≠ S754_zero s'.
Proof.
  intros He. unfold binary_round.
  destruct (shl_align p e _) as [mz ez] eqn:Hal.
  assert (Hez : Spec.emin ≤ ez).
  { unfold shl_align in Hal.
    destruct (fexp Js.prec Js.emax (Z.pos (digits2_pos p) + e) - e) eqn:Hn;
      injection Hal as <- <-; try done.
    unfold fexp. fold Spec.emin. lia. }
  split; [by apply binary_round_aux_range | by apply binary_round_aux_nonzero].
Qed.

Lemma binary_normalize_spec (m e : Z) :
  Spec.emin ≤ e →
  Spec.in_range (binary_normalize Js.prec Js.emax m e false)
  ∧ binary_normalize Js.prec Js.emax m e false ≠ S754_zero true.
Proof.
  intros He. destruct m as [|p|p]; simpl; [done| |]; by apply binary_round_spec.
Qed.

Lemma add_in_range (x y : Js.number) :
  Spec.in_range x → Spec.in_range y → Spec.in_range (Js.add x y).
Proof.
  intros Hx Hy.
  destruct x as [sx|sx| |sx mx ex], y as [sy|sy| |sy my ey]; simpl in *; try done.
  - by destruct sx, sy.
  - by destruct sx, sy.
  - apply binary_normalize_spec. lia.
Qed.

Lemma add_not_negative_zero (x y : Js.number) :
  Spec.in_range x → Spec.in_range y → x ≠ S754_zero true → Js.add x y ≠ S754_zero true.
Proof.
  intros Hx Hy Hn.
  destruct x as [sx|sx| |sx mx ex], y as [sy|sy| |sy my ey]; simpl in *; try done.
  - by destruct sx, sy.
  - by destruct sx, sy.
  - apply binary_normalize_spec. lia.
Qed.

Lemma round_decimal_in_range (neg : bool) (m e10 : Z) :
  Spec.in_range (Js.round_decimal neg m e10).
Proof.
  unfold Js.round_decimal.
  destruct (m * 10 ^ Z.max e10 0) as [|p|p]; try done.
  destruct (10 ^ Z.max (- e10) 0) as [|q|q]; try done.
  unfold SFdiv, SFdiv_core_binary.
  destruct (Z.div_eucl _ _) as [q' r']. rewrite xorb_false_r.
  apply binary_round_aux_range.
  unfold fexp. fold Spec.emin. unfold Spec.emin, SpecFloat.emin, Js.emax, Js.prec. lia.
Qed.

Lemma parse_unsigned_in_range (neg : bool) (s : string) :
  Spec.in_range (Js.parse_unsigned neg s).
Proof.
  unfold Js.parse_unsigned. destruct (Js.strip_prefix _ _); first done.
  destruct (Js.read_digits s 0 0) as [[ip ni] r1].
  destruct r1 as [|c r2].
  - destruct ni; [done | apply round_decimal_in_range].
  - destruct c as [[] [] [] [] [] [] [] []];
      try (destruct ni; [done | apply round_decimal_in_range]).
    destruct (Js.read_digits r2 ip 0) as [[m n] r3].
    destruct ni, n; try done; apply round_decimal_in_range.
Qed.

Lemma parseFloat_in_range (s : string) : Spec.in_range (Js.parseFloat s).
Proof.
  unfold Js.parseFloat. destruct (Js.trim_start s) as [|c r].
  - apply parse_unsigned_in_range.
  - destruct c as [[] [] [] [] [] [] [] []]; apply parse_unsigned_in_range.
Qed.

(** [acc + (v || 0)] is [acc + v], with 0 for a [v] that is NaN, unless
    [acc] is the negative zero. *)
Lemma add_or_zero (acc : Js.number) (a : NewInvestment.CategoryAllocation) :
  acc ≠ S754_zero true →
  Js.add acc (Js.or (Js.parseFloat (NewInvestment.amount a)) Js.zero)
  = Js.add acc (Spec.amount_or_zero a).
Proof.
  intros Hacc. unfold Spec.amount_or_zero, Js.or.
  destruct (Js.parseFloat _) as [[|]| s | |s m e]; simpl; try done.
  by destruct acc as [[|]| | |].
Qed.

Lemma or_zero_in_range (s : string) :
  Spec.in_range (Js.or (Js.parseFloat s) Js.zero).
Proof.
  unfold Js.or. pose proof (parseFloat_in_range s) as H.
  by destruct (Js.truthy _).
Qed.

End Doubles.

(** ** The session store *)

Section SessionStore.

Import AuthContext.

(** What was persisted is what the next page load starts from. *)
Lemma usePersistentState_persist (key : string)
    (state initialValue : option Supabase.Session)
    (localStorage : gmap string (StoredText (option Supabase.Session))) :
  usePersistentState true (persist key state localStorage) key initialValue
  = Some state.
Proof.
  unfold usePersistentState, persist. simpl. by rewrite lookup_insert_eq.
Qed.

(** A page load after a session was persisted: the session is back, the
    user is not. *)
Lemma reload_restores_session_only (s : option Supabase.Session)
    (localStorage : gmap string (StoredText (option Supabase.Session))) :
  AuthProvider true (persist "session" s localStorage) = Some (mkAuth s None).
Proof. unfold AuthProvider. by rewrite usePersistentState_persist. Qed.

Lemma run_snoc (st : AuthContextType) (es : list Event) (e : Event) :
  run st (es ++ [e]) = fst (step (run st es) e).
Proof. unfold run. by rewrite fold_left_app. Qed.

(** C4. After the listener has been invoked, the store holds the payload of
    that invocation as its session and the payload's user (none for a null
    payload) as its user, whatever happened before; one invocation replaces
    the two together. *)
Theorem session_is_last_event_payload
    (st : AuthContextType) (es : list Event) (payload : option Supabase.Session) :
  last es = Some (onAuthStateChange payload) →
  session (run st es) = payload
  ∧ user (run st es) = Supabase.user <$> payload
  ∧ ∀ st0, step st0 (onAuthStateChange payload)
           = (mkAuth payload (Supabase.user <$> payload), []).
Proof.
  intros [es' ->]%last_Some.
  rewrite run_snoc. done.
Qed.

Lemma session_is_last_event_payload_witness :
  last [onAuthStateChange (Some Examples.alice_session); onAuthStateChange None]
    = Some (onAuthStateChange None)
  ∧ session (run (mkAuth None None)
               [onAuthStateChange (Some Examples.alice_session);
                onAuthStateChange None])
    = None.
Proof.
  split; [reflexivity|].
  apply (session_is_last_event_payload (mkAuth None None)
           [onAuthStateChange (Some Examples.alice_session);
            onAuthStateChange None] None).
  reflexivity.
Defined.

(** Only the two callbacks that assign the user can make it present. *)
Lemma user_set_by_callbacks (st : AuthContextType) (e : Event) :
  user st = None → user (fst (step st e)) ≠ None →
  ∃ s, e = getSession_resolved (Some s) ∨ e = onAuthStateChange (Some s).
Proof.
  destruct e as [[s|] | [s|] | ]; simpl; intros Hu Hn; try done; eauto.
Qed.

(** C5. The store is constructed without a user, also when a session
    snapshot is restored from local storage; the user appears only with the
    resolution of the session fetch or with an auth event. With a restored
    session the guard therefore renders the protected view while the entry
    form refuses to submit, saying that the user is not logged in. *)
Theorem user_absent_at_construction
    (localStorage : gmap string (StoredText (option Supabase.Session)))
    (s : Supabase.Session) :
  localStorage !! "session" = Some (JsonText (Some s)) →
  (∀ w ls st, AuthProvider w ls = Some st → user st = None)
  ∧ (∀ st e, user st = None → user (fst (step st e)) ≠ None →
       ∃ s', e = getSession_resolved (Some s') ∨ e = onAuthStateChange (Some s'))
  ∧ ∃ st, AuthProvider true localStorage = Some st
      ∧ session st = Some s ∧ user st = None
      ∧ App.PrivateRoute st = App.children
      ∧ ∀ env srv form,
          let out := NewInvestment.handleSubmit (user st) env srv form in
          NewInvestment.error (state out)
            = Some "You must be logged in to add investments"
          ∧ issued out = [] ∧ navigated out = None ∧ server out = srv.
Proof.
  intros Hls. split; [|split].
  - intros w ls st. unfold AuthProvider.
    destruct (usePersistentState _ _ _ _); simpl; by intros [= <-].
  - apply user_set_by_callbacks.
  - exists (mkAuth (Some s) None).
    unfold AuthProvider, usePersistentState. rewrite Hls. simpl. done.
Qed.

Lemma user_absent_at_construction_witness :
  Examples.restored_storage !! "session"
    = Some (JsonText (Some Examples.alice_session))
  ∧ ∃ st, AuthProvider true Examples.restored_storage = Some st
      ∧ session st = Some Examples.alice_session ∧ user st = None
      ∧ App.PrivateRoute st = App.children.
Proof.
  split; [reflexivity|].
  destruct (user_absent_at_construction
              Examples.restored_storage Examples.alice_session)
    as (_ & _ & st & H1 & H2 & H3 & H4 & _).
  - reflexivity.
  - exists st. done.
Defined.

Lemma run_after_mount_session (st : AuthContextType) (es : list Event) :
  Forall Spec.after_mount es →
  is_Some (session st) → session (run st es) = None →
  onAuthStateChange None ∈ es.
Proof.
  revert st. induction es as [|e es IH]; intros st Hes Hs Hn.
  - simpl in Hn. rewrite Hn in Hs. by destruct Hs.
  - inversion Hes as [|? ? He Hes']; subst.
    destruct e as [p | [s|] | ]; simpl in *; try done.
    + right. apply (IH (set_both (Some s))); eauto.
    + left.
    + right. by apply (IH st).
Qed.

Lemma run_session_cleared (st : AuthContextType) (es : list Event) :
  is_Some (session st) → session (run st es) = None →
  onAuthStateChange None ∈ es ∨ getSession_resolved None ∈ es.
Proof.
  revert st. induction es as [|e es IH]; intros st Hs Hn.
  - simpl in Hn. rewrite Hn in Hs. by destruct Hs.
  - destruct e as [[s|] | [s|] | ]; simpl in Hn.
    + destruct (IH (set_both (Some s))) as [?|?]; [by eexists | done | |];
        [left | right]; by right.
    + right. left.
    + destruct (IH (set_both (Some s))) as [?|?]; [by eexists | done | |];
        [left | right]; by right.
    + left. left.
    + destruct (IH st) as [?|?]; [done | done | |]; [left | right]; by right.
Qed.

(** C10, as the code has it. Calling [signOut] leaves the session and the
    user of the store as they are and only asks the service to invalidate
    the session. After the call a session that is present is cleared only
    when a null payload is handed to the store: by the listener, invoked
    with null, or by the mount-time session fetch, resolving with null, if
    it is still pending; once that fetch has resolved, by the listener
    only. Either of the two clears the session and the user together. *)
Theorem signOut_leaves_store_until_null_payload
    (st : AuthContextType) (es : list Event) :
  is_Some (session st) →
  step st signOut = (st, [Supabase.AuthSignOut])
  ∧ (session (run st (signOut :: es)) = None →
     onAuthStateChange None ∈ es ∨ getSession_resolved None ∈ es)
  ∧ (Forall Spec.after_mount es →
     session (run st (signOut :: es)) = None → onAuthStateChange None ∈ es)
  ∧ (∀ st0, fst (step st0 (onAuthStateChange None)) = mkAuth None None)
  ∧ (∀ st0, fst (step st0 (getSession_resolved None)) = mkAuth None None).
Proof.
  intros Hs. split; [done|]. split; [|split; [|done]].
  - simpl. by apply run_session_cleared.
  - intros Hes. simpl. by apply run_after_mount_session.
Qed.

Lemma signOut_leaves_store_until_null_payload_witness :
  is_Some (session Examples.signed_in)
  ∧ step Examples.signed_in signOut
    = (Examples.signed_in, [Supabase.AuthSignOut]).
Proof.
  assert (H : is_Some (session Examples.signed_in)) by (by eexists).
  split; [exact H|].
  apply (signOut_leaves_store_until_null_payload Examples.signed_in
           [signOut; onAuthStateChange None] H).
Defined.

(** C10, as stated, does not hold: the store starts from a restored
    session, [signOut] is called while the mount-time fetch is pending, and
    the fetch then resolves with null. The session and the user are cleared
    and no auth-state-change event has been delivered. *)
Lemma signOut_then_fetch_clears :
  AuthProvider true Examples.restored_storage
    = Some (mkAuth (Some Examples.alice_session) None)
  ∧ fst (step (mkAuth (Some Examples.alice_session) None) signOut)
    = mkAuth (Some Examples.alice_session) None
  ∧ session (run (mkAuth (Some Examples.alice_session) None)
               [signOut; getSession_resolved None]) = None
  ∧ user (run (mkAuth (Some Examples.alice_session) None)
            [signOut; getSession_resolved None]) = None
  ∧ (∀ payload,
       onAuthStateChange payload ∉ [signOut; getSession_resolved None]).
Proof.
  repeat split; try reflexivity.
  intros payload. rewrite !elem_of_cons, elem_of_nil. intros [?|[?|?]]; done.
Qed.

End SessionStore.

(** ** The entry form: the sequence of drafts and the derived total *)

Section EntryFormDrafts.

Import NewInvestment.

Lemma filter_index_above {A : Type} (index k : nat) (l : list A) :
  index < k → filter_index (λ i, negb (i =? index)%nat) k l = l.
Proof.
  revert k. induction l as [|x l IH]; intros k Hk; simpl; first done.
  destruct (Nat.eqb_spec k index) as [->|_]; first lia.
  simpl. rewrite IH; [done | lia].
Qed.

(** Filtering out one index is deleting at that position. *)
Lemma filter_index_delete {A : Type} (index k : nat) (l : list A) :
  k ≤ index →
  filter_index (λ i, negb (i =? index)%nat) k l = delete (index - k) l.
Proof.
  revert k. induction l as [|x l IH]; intros k Hk; simpl; first done.
  destruct (Nat.eqb_spec k index) as [->|Hne]; simpl.
  - rewrite Nat.sub_diag. simpl. apply filter_index_above. lia.
  - rewrite IH; last lia.
    replace (index - k) with (S (index - S k)) by lia. done.
Qed.

Lemma length_delete_lower {A : Type} (i : nat) (l : list A) :
  length l - 1 ≤ length (delete i l).
Proof.
  revert i. induction l as [|x l IH]; intros [|i]; simpl; try lia.
  specialize (IH i). lia.
Qed.

Lemma handleRemoveAllocation_delete (index : nat) (st : State) :
  length (allocations st) ≠ 1 →
  allocations (handleRemoveAllocation index st) = delete index (allocations st).
Proof.
  intros Hlen. unfold handleRemoveAllocation.
  destruct (Nat.eqb_spec (length (allocations st)) 1) as [?|_]; first done.
  simpl. rewrite filter_index_delete; last lia. by rewrite Nat.sub_0_r.
Qed.

Lemma handleSubmit_allocations user env srv (st : State) :
  allocations (state (handleSubmit user env srv st)) = allocations st.
Proof.
  unfold handleSubmit. destruct user as [u|]; last done.
  destruct (existsb invalid (allocations st)); first done.
  destruct (Supabase.insert_all _ _ _ _) as [srv' results].
  by destruct (filter _ results).
Qed.

Lemma step_keeps_nonempty (st st' : State) (a : Action) :
  allocations st ≠ [] → step st a = Some st' → allocations st' ≠ [].
Proof.
  intros Hne. destruct a as [|index|index field value|value|user env srv]; simpl.
  - intros [= <-]. simpl. by destruct (allocations st).
  - intros [= <-]. unfold handleRemoveAllocation.
    destruct (Nat.eqb_spec (length (allocations st)) 1) as [?|Hlen]; first done.
    simpl. rewrite filter_index_delete; last lia. rewrite Nat.sub_0_r.
    intros Hnil. pose proof (length_delete_lower index (allocations st)) as Hlow.
    rewrite Hnil in Hlow. simpl in Hlow.
    destruct (allocations st) as [|? [|? ?]]; simpl in *; done || lia.
  - unfold handleAllocationChange.
    destruct (allocations st !! index) as [a|]; simpl; last done.
    intros [= <-]. simpl. intros Hnil. apply (f_equal length) in Hnil.
    rewrite length_insert in Hnil. by destruct (allocations st).
  - by intros [= <-].
  - intros [= <-]. by rewrite handleSubmit_allocations.
Qed.

Lemma run_keeps_nonempty (actions : list Action) (st st' : State) :
  allocations st ≠ [] → run st actions = Some st' → allocations st' ≠ [].
Proof.
  revert st. induction actions as [|a rest IH]; intros st Hne; simpl.
  - by intros [= <-].
  - destruct (step st a) as [st1|] eqn:Hstep; simpl; last done.
    apply IH. by eapply step_keeps_nonempty.
Qed.

(** C8. The form opens with exactly one empty draft; adding appends one
    empty draft; removing at any position when one draft is left puts a
    fresh empty draft in its place, a sequence of length 1, and otherwise
    deletes the draft at that position; no sequence of form events leads
    from the opening state to an empty sequence. *)
Theorem allocations_never_empty
    (today : string) (actions : list Action) (st' : State) :
  run (initial today) actions = Some st' →
  (∃ a, allocations (initial today) = [a] ∧ Spec.empty_draft a)
  ∧ (∀ st, ∃ a, allocations (handleAddAllocation st) = allocations st ++ [a]
                ∧ Spec.empty_draft a)
  ∧ (∀ st index, length (allocations st) = 1 →
       ∃ a, allocations (handleRemoveAllocation index st) = [a]
            ∧ Spec.empty_draft a)
  ∧ (∀ st index, length (allocations st) ≠ 1 →
       allocations (handleRemoveAllocation index st)
       = delete index (allocations st))
  ∧ (∀ st index, allocations st ≠ [] →
       allocations (handleRemoveAllocation index st) ≠ [])
  ∧ allocations st' ≠ [].
Proof.
  intros Hrun. repeat split.
  - eexists. split; first done. unfold Spec.empty_draft. simpl. eauto.
  - intros st. eexists. split; first done. unfold Spec.empty_draft. simpl. eauto.
  - intros st index Hlen. unfold handleRemoveAllocation. rewrite Hlen. simpl.
    eexists. split; first done. unfold Spec.empty_draft. simpl. eauto.
  - intros st index. apply handleRemoveAllocation_delete.
  - intros st index Hne.
    by apply (step_keeps_nonempty st _ (RemoveAllocation index)).
  - by apply (run_keeps_nonempty actions (initial today)).
Qed.

Lemma allocations_never_empty_witness :
  run (initial "2025-03-08")
    [AddAllocation; RemoveAllocation 0; RemoveAllocation 0;
     AllocationChange 0 f_amount "10"]
    = Some (mkState false None [mkAllocation "" "10" None]
              (mkFormData "2025-03-08"))
  ∧ allocations (mkState false None [mkAllocation "" "10" None]
                   (mkFormData "2025-03-08")) ≠ [].
Proof.
  assert (H : run (initial "2025-03-08")
                [AddAllocation; RemoveAllocation 0; RemoveAllocation 0;
                 AllocationChange 0 f_amount "10"]
              = Some (mkState false None [mkAllocation "" "10" None]
                        (mkFormData "2025-03-08"))) by reflexivity.
  split; [exact H|].
  apply (allocations_never_empty "2025-03-08" _ _ H).
Defined.

(** The sum of the draft amounts follows the additions of [totalAmount]. *)
Lemma totalAmount_from (l : list CategoryAllocation) (acc : Js.number) :
  Spec.in_range acc → acc ≠ S754_zero true →
  fold_left
    (λ sum allocation,
       Js.add sum (Js.or (Js.parseFloat (amount allocation)) Js.zero))
    l acc
  = Spec.sum_from acc (map Spec.amount_or_zero l).
Proof.
  revert acc. induction l as [|a l IH]; intros acc Hr Hz; simpl; first done.
  rewrite <- (add_or_zero acc a Hz). apply IH.
  - apply add_in_range; [done | apply or_zero_in_range].
  - apply add_not_negative_zero; [done | apply or_zero_in_range | done].
Qed.

(** C9. The derived total is the sum, from the left, of the amounts of the
    drafts, an amount that does not parse (the empty one included)
    counting as zero. For the amounts "10", "abc", "5.5" it is 15.5. *)
Theorem totalAmount_is_sum (st : State) :
  totalAmount st = Spec.sum (map Spec.amount_or_zero (allocations st))
  ∧ (∀ a, amount a = "" → Spec.amount_or_zero a = Js.zero)
  ∧ (∀ a, Js.parseFloat (amount a) = Js.NaN → Spec.amount_or_zero a = Js.zero)
  ∧ totalAmount Examples.three_drafts = Examples.fifteen_and_a_half
  ∧ Js.parseFloat "15.5" = Examples.fifteen_and_a_half.
Proof.
  split; [|split; [|split; [|split]]].
  - by apply totalAmount_from.
  - intros a Ha. unfold Spec.amount_or_zero. by rewrite Ha.
  - intros a Ha. unfold Spec.amount_or_zero. by rewrite Ha.
  - vm_compute. reflexivity.
  - vm_compute. reflexivity.
Qed.

End EntryFormDrafts.

(** ** The entry form: submission *)

Section EntryFormSubmission.

Import NewInvestment.

Lemma truthy_string_false (s : string) : Js.truthy_string s = false ↔ s = "".
Proof. destruct s; simpl; split; done. Qed.

Lemma invalid_offending (a : CategoryAllocation) :
  invalid a = true ↔ Spec.offending_draft a.
Proof.
  unfold invalid, Spec.offending_draft.
  rewrite !orb_true_iff, !negb_true_iff, !truthy_string_false. tauto.
Qed.

Lemma valid_not_invalid (a : CategoryAllocation) :
  Spec.valid_draft a → invalid a = false.
Proof.
  intros (Hc & Ha & Hgt). unfold invalid.
  rewrite (gt_zero_not_le _ Hgt).
  destruct (category a); first done. by destruct (amount a).
Qed.

Lemma existsb_invalid_valid (l : list CategoryAllocation) :
  Forall Spec.valid_draft l → existsb invalid l = false.
Proof.
  induction 1 as [|a l Ha _ IH]; simpl; first done.
  by rewrite (valid_not_invalid a Ha), IH.
Qed.

Lemma existsb_invalid_offending (l : list CategoryAllocation) :
  Exists Spec.offending_draft l → existsb invalid l = true.
Proof.
  induction 1 as [a l Ha | a l _ IH]; simpl.
  - apply invalid_offending in Ha. by rewrite Ha.
  - rewrite IH. apply orb_true_r.
Qed.

Lemma or_string_notes (a : CategoryAllocation) :
  Js.or_string (notes a) "" = Spec.notes_or_empty a.
Proof. unfold Spec.notes_or_empty. by destruct (notes a) as [[|c r]|]. Qed.

(** What [handleSubmit] does once the user is known and the drafts have
    passed validation. *)
Lemma handleSubmit_sent (u : Supabase.User) env srv (st : State) :
  existsb invalid (allocations st) = false →
  let vs := map (investment_of u (investmentDate (formData st))) (allocations st) in
  let out := handleSubmit (Some u) env srv st in
  issued out = map Supabase.Insert vs
  ∧ server out = (Supabase.insert_all env 0 vs srv).1.
Proof.
  intros Hvalid. simpl. unfold handleSubmit. rewrite Hvalid.
  destruct (Supabase.insert_all _ _ _ _) as [srv' results].
  by destruct (filter _ results).
Qed.

(** C2. With a current user and drafts that all have a category, an amount
    and a parsed amount above zero, submission issues one create request
    per draft, in the order of the drafts; the request of a draft carries
    the user's identifier, the draft's parsed amount, its category, the
    date of the form and the draft's notes, or the empty string when the
    draft has none. *)
Theorem valid_submission_requests (u : Supabase.User) env srv (st : State) :
  Forall Spec.valid_draft (allocations st) →
  let out := handleSubmit (Some u) env srv st in
  let request_of a :=
    Supabase.Insert
      (Supabase.mkValues (Supabase.id u) (Js.parseFloat (amount a))
         (category a) (investmentDate (formData st)) (Spec.notes_or_empty a)) in
  issued out = map request_of (allocations st)
  ∧ length (issued out) = length (allocations st)
  ∧ ∀ i a, allocations st !! i = Some a → issued out !! i = Some (request_of a).
Proof.
  intros Hvalid%existsb_invalid_valid out request_of.
  destruct (handleSubmit_sent u env srv st Hvalid) as [Hissued _].
  assert (Heq : issued out = map request_of (allocations st)).
  { subst out. rewrite Hissued, map_map. apply map_ext. intros a.
    unfold request_of, investment_of. by rewrite or_string_notes. }
  rewrite Heq. split; [done|]. split.
  - by rewrite length_map.
  - intros i a Hi.
    change (map request_of (allocations st)) with (request_of <$> allocations st).
    by rewrite list_lookup_fmap, Hi.
Qed.

Lemma valid_submission_requests_witness :
  Forall Spec.valid_draft (allocations Examples.two_drafts)
  ∧ issued (handleSubmit (Some Examples.alice) Examples.all_succeed
              Examples.alice_server Examples.two_drafts)
    = [Supabase.Insert
         (Supabase.mkValues "u-1" (Js.of_Z 100) "Stocks" "2025-03-08" "monthly");
       Supabase.Insert
         (Supabase.mkValues "u-1" (Js.of_Z 250) "Bonds" "2025-03-08" "")].
Proof.
  assert (H : Forall Spec.valid_draft (allocations Examples.two_drafts)).
  { repeat constructor; simpl; done || (vm_compute; reflexivity). }
  split; [exact H|].
  destruct (valid_submission_requests Examples.alice Examples.all_succeed
              Examples.alice_server Examples.two_drafts H) as [-> _].
  vm_compute. reflexivity.
Defined.

(** C3. Without a current user, or with a draft that has no category, no
    amount or a parsed amount at or below zero, submission issues no
    request, leaves the service alone, stays on the form and sets one
    error message; the message is a fixed text for each of the two cases
    and names no draft. *)
Theorem rejected_submission_sends_nothing
    (user : option Supabase.User) env srv (st : State) :
  user = None ∨ Exists Spec.offending_draft (allocations st) →
  let out := handleSubmit user env srv st in
  issued out = [] ∧ server out = srv ∧ navigated out = None
  ∧ allocations (state out) = allocations st
  ∧ error (state out)
    = Some (match user with
            | None => "You must be logged in to add investments"
            | Some _ => "All categories must be selected and have a valid amount"
            end).
Proof.
  intros H. simpl. unfold handleSubmit. destruct user as [u|]; last done.
  destruct H as [?|H%existsb_invalid_offending]; first done.
  by rewrite H.
Qed.

Lemma rejected_submission_sends_nothing_witness :
  Exists Spec.offending_draft (allocations (initial "2025-03-08"))
  ∧ issued (handleSubmit (Some Examples.alice) Examples.all_succeed
              Examples.alice_server (initial "2025-03-08")) = [].
Proof.
  assert (H : Exists Spec.offending_draft (allocations (initial "2025-03-08"))).
  { left. left. reflexivity. }
  split; [exact H|].
  apply (rejected_submission_sends_nothing (Some Examples.alice)
           Examples.all_succeed Examples.alice_server (initial "2025-03-08")).
  right. exact H.
Defined.

End EntryFormSubmission.

(** ** The entry form: a batch in which requests fail *)

Section EntryFormBatch.

Import NewInvestment.

Lemma insert_keeps fault new_id v srv row :
  row ∈ Supabase.investments srv →
  row ∈ Supabase.investments (Supabase.insert fault new_id v srv).1.
Proof.
  unfold Supabase.insert. destruct fault; first done.
  case_decide; simpl; last done. set_solver.
Qed.

Lemma insert_succeeded fault new_id v srv :
  Spec.succeeded (Supabase.insert fault new_id v srv).2 →
  Supabase.mkRow new_id v
    ∈ Supabase.investments (Supabase.insert fault new_id v srv).1.
Proof.
  unfold Supabase.insert, Spec.succeeded. destruct fault; first done.
  case_decide; simpl; last done. set_solver.
Qed.

(** [insert_all] by its equation, with projections for the pairs. *)
Lemma insert_all_cons env k v vs srv :
  Supabase.insert_all env k (v :: vs) srv
  = let first :=
      Supabase.insert (Supabase.fault env k) (Supabase.gen_random_uuid env k) v srv in
    let rest := Supabase.insert_all env (S k) vs first.1 in
    (rest.1, first.2 :: rest.2).
Proof.
  simpl. destruct (Supabase.insert _ _ v srv) as [srv1 r]. simpl.
  by destruct (Supabase.insert_all env (S k) vs srv1).
Qed.

Lemma insert_all_keeps env k vs srv row :
  row ∈ Supabase.investments srv →
  row ∈ Supabase.investments (Supabase.insert_all env k vs srv).1.
Proof.
  revert k srv. induction vs as [|v vs IH]; intros k srv Hrow; first done.
  rewrite insert_all_cons. cbn zeta. cbn [fst]. by apply IH, insert_keeps.
Qed.

(** The row of every request of a batch that succeeded is in the table
    when the batch is over, whatever became of the other requests. *)
Lemma insert_all_persisted env k vs srv i v r :
  vs !! i = Some v →
  (Supabase.insert_all env k vs srv).2 !! i = Some r →
  Spec.succeeded r →
  Supabase.mkRow (Supabase.gen_random_uuid env (k + i)) v
    ∈ Supabase.investments (Supabase.insert_all env k vs srv).1.
Proof.
  revert k srv i. induction vs as [|v0 vs IH]; intros k srv i Hv; first done.
  rewrite insert_all_cons. cbn zeta. cbn [fst snd].
  destruct i as [|i]; simpl in Hv |- *.
  - injection Hv as ->. intros [= <-] Hr. rewrite Nat.add_0_r.
    by apply insert_all_keeps, insert_succeeded.
  - intros Hr Hs. replace (k + S i) with (S k + i) by lia. by apply IH.
Qed.

Lemma insert_all_length env k vs srv :
  length (Supabase.insert_all env k vs srv).2 = length vs.
Proof.
  revert k srv. induction vs as [|v vs IH]; intros k srv; first done.
  rewrite insert_all_cons. cbn zeta. cbn [snd]. simpl. by rewrite IH.
Qed.

Lemma filter_first_failure (rs : list (Supabase.Response unit)) :
  match filter (λ r, is_Some (Supabase.error r)) rs with
  | [] => Spec.first_failure rs = None
  | r :: _ => Supabase.error r = Spec.first_failure rs
              ∧ is_Some (Supabase.error r)
  end.
Proof.
  induction rs as [|r rs IH]; simpl; first done.
  destruct (Supabase.error r) as [e|] eqn:He.
  - rewrite filter_cons_True; last by rewrite He.
    rewrite He. split; [done | by eexists].
  - rewrite filter_cons_False; first done.
    rewrite He. by intros [? ?].
Qed.

Lemma first_failure_none (rs : list (Supabase.Response unit)) :
  Spec.first_failure rs = None ↔ Forall Spec.succeeded rs.
Proof.
  induction rs as [|r rs IH]; simpl; first done.
  rewrite Forall_cons. unfold Spec.succeeded at 1.
  destruct (Supabase.error r); [|tauto]. split; [done | by intros [? _]].
Qed.

(** C1, as the code has it. When requests of the batch fail, the error of
    the form is the message of the first failed response, in the order of
    the requests, if that error is an [Error] instance, and the fixed text
    "Failed to add investments. Please try again." if it is not; the form
    does not navigate. The handler issues the create requests and nothing
    else, so the rows of the requests that succeeded stay in the table,
    with all rows that were there before. The form navigates to the list
    view exactly when every request succeeded. *)
Theorem failed_batch_is_not_rolled_back
    (u : Supabase.User) env srv (st : State) :
  existsb invalid (allocations st) = false →
  let vs := map (investment_of u (investmentDate (formData st))) (allocations st) in
  let results := (Supabase.insert_all env 0 vs srv).2 in
  let out := handleSubmit (Some u) env srv st in
  (∀ err, Spec.first_failure results = Some err →
     error (state out)
       = Some (if Js.instanceof_Error err then Js.message err
               else "Failed to add investments. Please try again.")
     ∧ navigated out = None)
  ∧ (navigated out = Some "/dashboard" ↔ Forall Spec.succeeded results)
  ∧ (navigated out = None ∨ navigated out = Some "/dashboard")
  ∧ issued out = map Supabase.Insert vs
  ∧ length results = length (allocations st)
  ∧ (∀ x, Supabase.DeleteEqId x ∉ issued out)
  ∧ (∀ row, row ∈ Supabase.investments srv →
       row ∈ Supabase.investments (server out))
  ∧ (∀ i v r, vs !! i = Some v → results !! i = Some r → Spec.succeeded r →
       Supabase.mkRow (Supabase.gen_random_uuid env i) v
         ∈ Supabase.investments (server out)).
Proof.
  intros Hvalid vs results out.
  destruct (handleSubmit_sent u env srv st Hvalid) as [Hissued Hserver].
  fold vs out in Hissued, Hserver.
  assert (Hnav : match Spec.first_failure results with
                 | Some err =>
                     error (state out) = Some (message_or err
                       "Failed to add investments. Please try again.")
                     ∧ navigated out = None
                 | None => navigated out = Some "/dashboard"
                 end).
  { subst out results. unfold handleSubmit. rewrite Hvalid. fold vs.
    pose proof (filter_first_failure (Supabase.insert_all env 0 vs srv).2) as Hf.
    destruct (Supabase.insert_all env 0 vs srv) as [srv' rs]. simpl in *.
    destruct (filter _ rs) as [|r ?].
    - by rewrite Hf.
    - destruct Hf as [<- [e He]]. by rewrite He. }
  split; [|split; [|split; [|split; [|split; [|split; [|split]]]]]].
  - intros err Herr. by rewrite Herr in Hnav.
  - rewrite <- first_failure_none.
    destruct (Spec.first_failure results) as [err|].
    + destruct Hnav as [_ ->]. split; done.
    + done.
  - destruct (Spec.first_failure results); [left; apply Hnav | by right].
  - done.
  - subst results vs. by rewrite insert_all_length, length_map.
  - intros x. rewrite Hissued, list_elem_of_In, in_map_iff. by intros (v & ? & _).
  - intros row Hrow. rewrite Hserver. by apply insert_all_keeps.
  - intros i v r Hv Hr Hs. rewrite Hserver.
    by apply (insert_all_persisted env 0 vs srv i v r).
Qed.

Lemma failed_batch_is_not_rolled_back_witness :
  existsb invalid (allocations Examples.two_drafts) = false
  ∧ issued (handleSubmit (Some Examples.alice) Examples.second_fails
              Examples.alice_server Examples.two_drafts)
    = map Supabase.Insert
        (map (investment_of Examples.alice "2025-03-08")
           (allocations Examples.two_drafts)).
Proof.
  assert (H : existsb invalid (allocations Examples.two_drafts) = false)
    by (vm_compute; reflexivity).
  split; [exact H|].
  apply (failed_batch_is_not_rolled_back Examples.alice Examples.second_fails
           Examples.alice_server Examples.two_drafts H).
Defined.

(** C1, as stated, does not hold: here the second request fails with an
    error that carries a message, the first row is inserted and stays, and
    the form shows the fixed text instead of the message. *)
Lemma failure_message_not_shown :
  let out := handleSubmit (Some Examples.alice) Examples.second_fails
               Examples.alice_server Examples.two_drafts in
  Spec.first_failure
    (Supabase.insert_all Examples.second_fails 0
       (map (investment_of Examples.alice "2025-03-08")
          (allocations Examples.two_drafts))
       Examples.alice_server).2
    = Some Examples.duplicate_key
  ∧ error (state out) ≠ Some (Js.message Examples.duplicate_key)
  ∧ error (state out) = Some "Failed to add investments. Please try again."
  ∧ length (Supabase.investments (server out)) = 1.
Proof. vm_compute. repeat split; done. Qed.

(** The message of an [Error] instance is shown; the second request of the
    same batch has succeeded and its row is in the table. *)
Example error_instance_message_shown :
  let out := handleSubmit (Some Examples.alice) Examples.first_throws
               Examples.alice_server Examples.two_drafts in
  error (state out) = Some "Network request failed"
  ∧ navigated out = None
  ∧ map Supabase.row_id (Supabase.investments (server out)) = ["row-1"].
Proof. vm_compute. done. Qed.

Example full_success_navigates :
  let out := handleSubmit (Some Examples.alice) Examples.all_succeed
               Examples.alice_server Examples.two_drafts in
  error (state out) = None
  ∧ loading (state out) = false
  ∧ navigated out = Some "/dashboard"
  ∧ map Supabase.row_id (Supabase.investments (server out)) = ["row-0"; "row-1"].
Proof. vm_compute. done. Qed.

(** A user other than the one of the token cannot insert: the policy
    refuses every request and nothing is stored. *)
Example foreign_user_refused :
  let out := handleSubmit (Some (Supabase.mkUser "u-2" "bob@example.org"))
               Examples.all_succeed Examples.alice_server Examples.two_drafts in
  navigated out = None
  ∧ error (state out) = Some "Failed to add investments. Please try again."
  ∧ Supabase.investments (server out) = [].
Proof. vm_compute. done. Qed.

End EntryFormBatch.

(** ** The list view *)

Section ListView.

Import Dashboard.

(** Whatever the response, [fetchInvestments] ends the loading state. *)
Lemma fetchInvestments_loaded
    (response : Supabase.Response (list Investment)) (st : State) :
  loading (fetchInvestments response st) = false.
Proof. unfold fetchInvestments. by destruct (Supabase.error response). Qed.

Lemma reduce_amounts (l : list Investment) (acc : Js.number) :
  fold_left (λ sum item, Js.add sum (amount item)) l acc
  = Spec.sum_from acc (map amount l).
Proof. revert acc. induction l as [|i l IH]; intros acc; simpl; auto. Qed.

Lemma totals_row_range (l : list Investment) (newest oldest : Investment) :
  head l = Some newest → last l = Some oldest →
  date_range (totals_row l)
  = investment_date oldest +:+ " - " +:+ investment_date newest.
Proof.
  intros Hhead Hlast. unfold totals_row. simpl.
  rewrite last_lookup in Hlast. rewrite head_lookup in Hhead.
  replace (length l - 1) with (pred (length l)) by lia.
  by rewrite Hlast, Hhead.
Qed.

(** C6, as the code has it. Once loading is over the totals row is
    rendered exactly when the list is not empty; its amount is the sum of
    the amounts of the list, 350 for the amounts 100 and 250; its date
    range is the date of the last entry of the list, then " - ", then the
    date of the first entry: oldest to newest for a list that is ordered
    newest first. *)
Theorem totals_row_rendered (st : State) :
  loading st = false →
  (is_Some (totals_of (render st)) ↔ investments st ≠ [])
  ∧ (∀ row, totals_of (render st) = Some row →
       total row = Spec.sum (map amount (investments st))
       ∧ ∀ newest oldest,
           head (investments st) = Some newest →
           last (investments st) = Some oldest →
           date_range row
           = investment_date oldest +:+ " - " +:+ investment_date newest)
  ∧ total (totals_row [Examples.march_2; Examples.march_1]) = Js.of_Z 350.
Proof.
  intros Hload. unfold render. rewrite Hload. simpl.
  split; [|split].
  - destruct (investments st); simpl; split; done.
  - intros row. destruct (investments st) as [|i l] eqn:Hl; simpl; first done.
    intros [= <-]. split.
    + apply reduce_amounts.
    + intros newest oldest Hhead Hlast.
      by apply (totals_row_range (i :: l)).
  - vm_compute. reflexivity.
Qed.

Lemma totals_row_rendered_witness :
  loading Examples.loaded = false
  ∧ (is_Some (totals_of (render Examples.loaded))
     ↔ investments Examples.loaded ≠ []).
Proof.
  split; [reflexivity|].
  apply (totals_row_rendered Examples.loaded). reflexivity.
Defined.

(** C6, as stated, does not hold: the list starts with the entry of
    2 March and ends with that of 1 March, and the range does not read
    from the first (newest) to the last (oldest) entry but the other way
    round. *)
Lemma totals_range_is_oldest_first :
  head (investments Examples.loaded) = Some Examples.march_2
  ∧ last (investments Examples.loaded) = Some Examples.march_1
  ∧ (∃ row, totals_of (render Examples.loaded) = Some row
            ∧ date_range row
              ≠ investment_date Examples.march_2 +:+ " - "
                  +:+ investment_date Examples.march_1
            ∧ date_range row = "2025-03-01 - 2025-03-02").
Proof.
  split; [reflexivity|]. split; [reflexivity|].
  eexists. split; [reflexivity|]. vm_compute. split; done.
Qed.

Lemma filter_others {A : Type} (P : A → Prop) `{!∀ x, Decision (P x)}
    (l : list A) :
  Forall P l → filter P l = l.
Proof.
  induction 1 as [|x l Hx _ IH]; first done.
  by rewrite filter_cons_True, IH.
Qed.

(** C7. [deleteInvestment] issues one request, the deletion of the rows
    with the given identifier, and no select; the service removes what of
    them the caller owns and nothing else. When the response reports no
    error, the items with that identifier leave the list, which for a list
    without a second item of that identifier is exactly the one item, and
    the rest stays in place; when it reports an error, an error is set and
    the list is as before. *)
Theorem deleteInvestment_after_confirmation
    (fault : option Js.Thrown) (x : string) (srv : Supabase.Server) (st : State) :
  let response := (Supabase.delete_eq_id fault x srv).2 in
  let out := deleteInvestment fault x srv st in
  issued out = [Supabase.DeleteEqId x]
  ∧ (Supabase.SelectByDateDesc ∉ issued out)
  ∧ navigated out = None
  ∧ (∀ r, r ∈ Supabase.investments (server out) ↔
          r ∈ Supabase.investments srv
          ∧ ¬ (Supabase.error response = None ∧ Supabase.row_id r = x
               ∧ Supabase.auth_uid srv = Some (Supabase.user_id (Supabase.values r))))
  ∧ (Supabase.error response = None →
       investments (state out) = filter (λ item, id item ≠ x) (investments st)
       ∧ error (state out) = error st
       ∧ ∀ l1 item l2,
           investments st = l1 ++ item :: l2 → id item = x →
           Forall (λ i, id i ≠ x) (l1 ++ l2) →
           investments (state out) = l1 ++ l2)
  ∧ (∀ e, Supabase.error response = Some e →
       investments (state out) = investments st
       ∧ error (state out) = Some (message_or e "An error occurred")
       ∧ server out = srv).
Proof.
  unfold deleteInvestment, Supabase.delete_eq_id.
  destruct fault as [e|]; simpl.
  - split; [done|]. split; [by intros [=]%list_elem_of_singleton|].
    split; [done|]. split.
    { intros r. split; [intros ?; split; [done | by intros [? _]] | by intros [? _]]. }
    split; [done|]. by intros e' [= <-].
  - split; [done|]. split; [by intros [=]%list_elem_of_singleton|].
    split; [done|]. split.
    { intros r. rewrite list_elem_of_filter. split.
      - intros [Hn ?]. split; [done|]. intros (_ & ? & ?). by apply Hn.
      - intros [? Hn]. split; [|done]. intros [? ?]. by apply Hn. }
    split; [|done].
    intros _. split; [done|]. split; [done|].
    intros l1 item l2 -> Hx [H1 H2]%Forall_app.
    rewrite filter_app, filter_cons_False by (intros Hne; by apply Hne).
    by rewrite !filter_others.
Qed.

Example fetched_list_rendered :
  render (fetchInvestments
            (Supabase.mkResponse (Some [Examples.march_2; Examples.march_1]) None)
            initial)
  = Page None [Examples.march_2; Examples.march_1] false
      (Some (mkTotals "2025-03-01 - 2025-03-02" (Js.of_Z 350))).
Proof. vm_compute. done. Qed.

Example empty_list_rendered :
  render (fetchInvestments (Supabase.mkResponse None None) initial)
  = Page None [] true None.
Proof. vm_compute. done. Qed.

(** After a confirmed deletion of the first row of the sample data: the
    list keeps the other item, the table keeps it and the row of the other
    user. *)
Example delete_first_row :
  let out := deleteInvestment None "row-2" Examples.shared_server Examples.loaded in
  investments (state out) = [Examples.march_1]
  ∧ map Supabase.row_id (Supabase.investments (server out)) = ["row-1"; "row-9"].
Proof. vm_compute. done. Qed.

(** The caller's token does not reach the row of another user. *)
Example delete_foreign_row :
  let out := deleteInvestment None "row-9" Examples.shared_server Examples.loaded in
  server out = Examples.shared_server.
Proof. vm_compute. done. Qed.

End ListView.


(** * Further properties *)

(** ** The store from construction on, and the routes *)

Section StoreAndRoutes.

Import AuthContext.

Lemma set_both_consistent (payload : option Supabase.Session) :
  Spec.consistent (set_both payload).
Proof.
  intros u. destruct payload as [s|]; simpl; last done.
  intros [= <-]. by exists s.
Qed.

Lemma step_consistent (st : AuthContextType) (e : Event) :
  Spec.consistent st → Spec.consistent (fst (step st e)).
Proof. destruct e; simpl; auto using set_both_consistent. Qed.

Lemma run_consistent (es : list Event) (st : AuthContextType) :
  Spec.consistent st → Spec.consistent (run st es).
Proof.
  revert st. induction es as [|e es IH]; intros st Hst; first done.
  apply IH, step_consistent, Hst.
Qed.

(** X1. From construction on, through any events, a user in the store
    comes with a session and is that session's user; so whenever the
    entry form finds a user, the guard has a session and renders the
    protected view. *)
Theorem store_user_belongs_to_session
    (w : bool) (ls : gmap string (StoredText (option Supabase.Session)))
    (st0 : AuthContextType) (es : list Event) :
  AuthProvider w ls = Some st0 →
  Spec.consistent (run st0 es)
  ∧ (is_Some (user (run st0 es)) → App.PrivateRoute (run st0 es) = App.children).
Proof.
  intros Hinit.
  assert (Hc : Spec.consistent (run st0 es)).
  { apply run_consistent. intros u. unfold AuthProvider in Hinit.
    destruct (usePersistentState _ _ _ _); simpl in Hinit; last done.
    by injection Hinit as <-. }
  split; first done.
  intros [u Hu]. destruct (Hc u Hu) as (s & Hs & _).
  unfold App.PrivateRoute. by rewrite Hs.
Qed.

Lemma store_user_belongs_to_session_witness :
  AuthProvider true Examples.restored_storage
    = Some (mkAuth (Some Examples.alice_session) None)
  ∧ Spec.consistent
      (run (mkAuth (Some Examples.alice_session) None)
         [signOut; onAuthStateChange (Some Examples.alice_session)]).
Proof.
  assert (H : AuthProvider true Examples.restored_storage
              = Some (mkAuth (Some Examples.alice_session) None)) by reflexivity.
  split; [exact H|].
  apply (store_user_belongs_to_session true Examples.restored_storage _
           [signOut; onAuthStateChange (Some Examples.alice_session)] H).
Defined.

(** X2. Construction fails exactly when there is a window and the text
    stored under "session" does not parse; it starts with a session exactly
    when there is a window and that text is the JSON of a session. A
    missing key, an empty text, the text of null or a missing window give a
    store without session. *)
Theorem AuthProvider_construction
    (w : bool) (ls : gmap string (StoredText (option Supabase.Session))) :
  (AuthProvider w ls = None ↔ w = true ∧ ls !! "session" = Some BadText)
  ∧ (∀ s, AuthProvider w ls = Some (mkAuth (Some s) None)
          ↔ w = true ∧ ls !! "session" = Some (JsonText (Some s)))
  ∧ (AuthProvider w ls = Some (mkAuth None None)
     ↔ w = false ∨ ls !! "session" = None ∨ ls !! "session" = Some EmptyText
       ∨ ls !! "session" = Some (JsonText None)).
Proof.
  unfold AuthProvider, usePersistentState.
  destruct w; simpl; [|firstorder congruence].
  destruct (ls !! "session") as [[|[s|]|]|]; simpl; firstorder congruence.
Qed.

(** X4. Redirects do not loop: whatever the store, every location settles
    after at most two redirects, on a mounted component or on no match. *)
Theorem routes_settle (ctx : AuthContextType) (path : string) :
  ∃ m, App.settle 2 ctx path = Some m ∧ ∀ to, m ≠ App.Redirected to.
Proof.
  unfold App.settle, App.App, App.guarded, App.PrivateRoute.
  destruct (session ctx);
    repeat (case_decide; subst; simpl; try (eexists; split; [done|done])).
Qed.


Lemma settle_by_S (matches : string → string → bool) (fuel : nat)
    (ctx : AuthContextType) (location : string) :
  App.settle_by matches (S fuel) ctx location
  = match App.App_by matches ctx location with
    | App.Redirected to => App.settle_by matches fuel ctx to
    | m => Some m
    end.
Proof. done. Qed.

Lemma login_settles (matches : string → string → bool)
    (ctx : AuthContextType) (fuel : nat) :
  matches "/login" "/login" = true →
  App.settle_by matches fuel ctx "/login" = Some (App.Mounted App.LoginPage).
Proof. intros Hl. destruct fuel; simpl; unfold App.App_by; by rewrite Hl. Qed.

Lemma dashboard_settles_without_session (matches : string → string → bool)
    (ctx : AuthContextType) :
  session ctx = None →
  matches "/login" "/login" = true →
  matches "/dashboard" "/dashboard" = true →
  App.settle_by matches 1 ctx "/dashboard" = Some (App.Mounted App.LoginPage).
Proof.
  intros Hs Hl Hd. rewrite settle_by_S.
  unfold App.App_by, App.guarded, App.PrivateRoute. rewrite Hs, Hd.
  destruct (matches "/login" "/dashboard"); first done.
  destruct (matches "/register" "/dashboard"); by rewrite (login_settles _ _ 0).
Qed.

(** X5. Without a session no location mounts a protected component,
    whatever test the router uses to match a location against the path of
    a route, as long as /login and /dashboard match their own routes: the
    login page is the only component that a location mounts; every
    location ends, after two redirects at most, on the login page or on no
    match; and a location that matches any route of the table, in whatever
    spelling the test accepts, ends on the login page. Under the literal
    test the table is [App]. *)
Theorem no_session_no_protected_view (matches : string → string → bool)
    (ctx : AuthContextType) (location : string) :
  session ctx = None →
  matches "/login" "/login" = true →
  matches "/dashboard" "/dashboard" = true →
  (∀ c, App.App_by matches ctx location = App.Mounted c → c = App.LoginPage)
  ∧ (App.settle_by matches 2 ctx location = Some (App.Mounted App.LoginPage)
     ∨ App.settle_by matches 2 ctx location = Some App.NoMatch)
  ∧ (∀ path,
       path ∈ ["/login"; "/register"; "/dashboard"; "/new-investment"; "/"] →
       matches path location = true →
       App.settle_by matches 2 ctx location = Some (App.Mounted App.LoginPage))
  ∧ (∀ fuel l, App.App_by String.eqb ctx l = App.App ctx l
               ∧ App.settle_by String.eqb fuel ctx l = App.settle fuel ctx l).
Proof.
  intros Hs Hl Hd.
  assert (Hcases :
    App.App_by matches ctx location = App.Mounted App.LoginPage
    ∨ App.App_by matches ctx location = App.Redirected "/login"
    ∨ App.App_by matches ctx location = App.Redirected "/dashboard"
    ∨ (App.App_by matches ctx location = App.NoMatch
       ∧ ∀ path,
           path ∈ ["/login"; "/register"; "/dashboard"; "/new-investment"; "/"] →
           matches path location = false)).
  { unfold App.App_by, App.guarded, App.PrivateRoute. rewrite Hs.
    destruct (matches "/login" location) eqn:H1; first by left.
    destruct (matches "/register" location) eqn:H2; first by (right; left).
    destruct (matches "/dashboard" location) eqn:H3; first by (right; left).
    destruct (matches "/new-investment" location) eqn:H4; first by (right; left).
    destruct (matches "/" location) eqn:H5; first by (right; right; left).
    right; right; right. split; first done.
    intros path. rewrite !elem_of_cons, elem_of_nil.
    intros [->|[->|[->|[->|[->|[]]]]]]; done. }
  assert (Hsettle :
    App.settle_by matches 2 ctx location = Some (App.Mounted App.LoginPage)
    ∨ (App.settle_by matches 2 ctx location = Some App.NoMatch
       ∧ ∀ path,
           path ∈ ["/login"; "/register"; "/dashboard"; "/new-investment"; "/"] →
           matches path location = false)).
  { rewrite settle_by_S.
    destruct Hcases as [->|[->|[->|[-> Hnone]]]].
    - by left.
    - left. by apply (login_settles matches ctx 1).
    - left. by apply dashboard_settles_without_session.
    - by right. }
  split; [|split; [|split]].
  - intros c Hc. destruct Hcases as [H|[H|[H|[H _]]]]; rewrite H in Hc;
      by inversion Hc.
  - destruct Hsettle as [?|[? _]]; auto.
  - intros path Hin Hm. destruct Hsettle as [?|[_ Hnone]]; first done.
    rewrite (Hnone path Hin) in Hm. done.
  - assert (Happ : ∀ l, App.App_by String.eqb ctx l = App.App ctx l).
    { intros l. unfold App.App_by, App.App.
      repeat (case_decide as Hdec;
              [ subst; reflexivity
              | apply String.eqb_neq in Hdec; rewrite String.eqb_sym in Hdec;
                rewrite Hdec; clear Hdec ]).
      done. }
    intros fuel l. split; first done.
    revert l. induction fuel as [|fuel IH]; intros l; simpl; rewrite Happ;
      destruct (App.App ctx l); done.
Qed.

Lemma no_session_no_protected_view_witness :
  session (mkAuth None None) = None
  ∧ Examples.loose_match "/login" "/login" = true
  ∧ Examples.loose_match "/dashboard" "/dashboard" = true
  ∧ Examples.loose_match "/dashboard" "/DASHBOARD/" = true
  ∧ App.settle_by Examples.loose_match 2 (mkAuth None None) "/DASHBOARD/"
    = Some (App.Mounted App.LoginPage).
Proof.
  assert (H1 : session (mkAuth None None) = None) by reflexivity.
  assert (H2 : Examples.loose_match "/login" "/login" = true) by reflexivity.
  assert (H3 : Examples.loose_match "/dashboard" "/dashboard" = true)
    by reflexivity.
  assert (H4 : Examples.loose_match "/dashboard" "/DASHBOARD/" = true)
    by reflexivity.
  split; [exact H1|]. split; [exact H2|]. split; [exact H3|]. split; [exact H4|].
  destruct (no_session_no_protected_view Examples.loose_match (mkAuth None None)
              "/DASHBOARD/" H1 H2 H3) as (_ & _ & H & _).
  apply (H "/dashboard"); [|exact H4]. do 2 right. left.
Defined.

(** X27. The store is a last-writer-wins cell: after any events it holds
    the payload that was handed over last, by the session fetch or by the
    listener alike, with that payload's user; calls of [signOut] count for
    nothing, and with no payload yet the store is as it started. So the
    result of the mount-time fetch replaces a restored session, also when
    the result is null. *)
Theorem store_is_last_payload (st : AuthContextType) (es : list Event) :
  run st es = match last (omap Spec.delivered es) with
              | Some payload => mkAuth payload (Supabase.user <$> payload)
              | None => st
              end
  ∧ ∀ st0, run st0 [getSession_resolved None] = mkAuth None None.
Proof.
  split; last done.
  induction es as [|e es IH] using rev_ind; first done.
  rewrite run_snoc, omap_app, IH.
  destruct e as [p|p|]; simpl; rewrite ?last_snoc, ?app_nil_r; done.
Qed.

End StoreAndRoutes.

(** ** The entry form: edits of the drafts *)

Section EntryFormEdits.

Import NewInvestment.

Lemma state_eta (st : State) :
  mkState (loading st) (error st) (allocations st) (formData st) = st.
Proof. by destruct st. Qed.

Lemma with_field_value (f : Field) (v : string) (a : CategoryAllocation) :
  Spec.field_value f (with_field f v a) = Some v
  ∧ ∀ g, g ≠ f → Spec.field_value g (with_field f v a) = Spec.field_value g a.
Proof. split; [by destruct f | intros g; by destruct f, g]. Qed.

Lemma with_field_commute (f g : Field) (v w : string) (a : CategoryAllocation) :
  f ≠ g → with_field f v (with_field g w a) = with_field g w (with_field f v a).
Proof. by destruct f, g. Qed.

(** X7. A field edit changes one field of one draft: the number of drafts
    stays, every other draft stays, the edited draft has the new value in
    the edited field and its other fields as before, and nothing else of
    the form changes. *)
Theorem handleAllocationChange_touches_one_field
    (index : nat) (field : Field) (value : string) (st st' : State) :
  handleAllocationChange index field value st = Some st' →
  length (allocations st') = length (allocations st)
  ∧ (∀ j, j ≠ index → allocations st' !! j = allocations st !! j)
  ∧ (∃ a a', allocations st !! index = Some a
             ∧ allocations st' !! index = Some a'
             ∧ Spec.field_value field a' = Some value
             ∧ ∀ g, g ≠ field → Spec.field_value g a' = Spec.field_value g a)
  ∧ loading st' = loading st ∧ error st' = error st ∧ formData st' = formData st.
Proof.
  unfold handleAllocationChange.
  destruct (allocations st !! index) as [a|] eqn:Ha; simpl; last done.
  intros [= <-]. simpl. split; [|split; [|split]].
  - apply length_insert.
  - intros j Hj. by apply list_lookup_insert_ne.
  - exists a, (with_field field value a). split; [done|]. split.
    + apply list_lookup_insert_eq. by eapply lookup_lt_Some.
    + apply with_field_value.
  - done.
Qed.

Lemma handleAllocationChange_touches_one_field_witness :
  handleAllocationChange 1 f_amount "250" Examples.two_drafts
    = Some Examples.two_drafts
  ∧ length (allocations Examples.two_drafts) = 2.
Proof.
  assert (H : handleAllocationChange 1 f_amount "250" Examples.two_drafts
              = Some Examples.two_drafts) by reflexivity.
  split; [exact H|].
  apply (handleAllocationChange_touches_one_field 1 f_amount "250" _ _ H).
Defined.

(** X8. Two field edits that differ in the position or in the field can be
    made in either order. *)
Theorem field_edits_commute
    (i j : nat) (f g : Field) (v w : string) (st : State) :
  i ≠ j ∨ f ≠ g →
  handleAllocationChange i f v st ≫= handleAllocationChange j g w
  = handleAllocationChange j g w st ≫= handleAllocationChange i f v.
Proof.
  intros Hdiff. unfold handleAllocationChange.
  destruct (decide (i = j)) as [<-|Hij].
  - destruct Hdiff as [?|Hfg]; first done.
    destruct (allocations st !! i) as [a|] eqn:Ha; simpl; last done.
    rewrite !list_lookup_insert_eq by (by eapply lookup_lt_Some). simpl.
    unfold setAllocations. simpl.
    by rewrite !list_insert_insert_eq, (with_field_commute g f) by done.
  - destruct (allocations st !! i) as [a|] eqn:Ha,
             (allocations st !! j) as [b|] eqn:Hb; simpl;
      rewrite ?list_lookup_insert_ne by done; rewrite ?Ha, ?Hb; simpl; try done.
    unfold setAllocations. simpl. by rewrite list_insert_insert_ne.
Qed.

Lemma field_edits_commute_witness :
  (0 ≠ 1 ∨ f_category ≠ f_amount)
  ∧ handleAllocationChange 0 f_category "ETFs" Examples.two_drafts
      ≫= handleAllocationChange 1 f_amount "7"
    = handleAllocationChange 1 f_amount "7" Examples.two_drafts
        ≫= handleAllocationChange 0 f_category "ETFs".
Proof.
  assert (H : 0 ≠ 1 ∨ f_category ≠ f_amount) by (left; lia).
  split; [exact H|].
  apply (field_edits_commute 0 1 f_category f_amount "ETFs" "7" _ H).
Defined.

(** X9. Adding a draft and then removing the draft at the new last
    position gives back the form as it was. *)
Theorem add_then_remove_last (st : State) :
  allocations st ≠ [] →
  handleRemoveAllocation (length (allocations st)) (handleAddAllocation st) = st.
Proof.
  intros Hne. unfold handleRemoveAllocation, handleAddAllocation, setAllocations.
  simpl. rewrite length_app. simpl.
  destruct (Nat.eqb_spec (length (allocations st) + 1) 1) as [Heq|_].
  - destruct (allocations st); [done | simpl in Heq; lia].
  - rewrite filter_index_delete by lia. rewrite Nat.sub_0_r, delete_middle, app_nil_r.
    apply state_eta.
Qed.

Lemma add_then_remove_last_witness :
  allocations Examples.two_drafts ≠ []
  ∧ handleRemoveAllocation 2 (handleAddAllocation Examples.two_drafts)
    = Examples.two_drafts.
Proof.
  assert (H : allocations Examples.two_drafts ≠ []) by done.
  split; [exact H|].
  apply (add_then_remove_last Examples.two_drafts H).
Defined.

Lemma delete_past_end {A : Type} (i : nat) (l : list A) :
  length l ≤ i → delete i l = l.
Proof.
  revert i. induction l as [|x l IH]; intros [|i] Hi; simpl in *; try done; try lia.
  f_equal. apply IH. lia.
Qed.

(** X10. With two or more drafts, removing at a position past the end
    changes nothing, and removing at a position of the form takes out that
    draft only: one draft fewer, the drafts before it in place, the drafts
    after it moved up by one. *)
Theorem handleRemoveAllocation_positions (index : nat) (st : State) :
  2 ≤ length (allocations st) →
  (length (allocations st) ≤ index → handleRemoveAllocation index st = st)
  ∧ (index < length (allocations st) →
     length (allocations (handleRemoveAllocation index st))
     = length (allocations st) - 1
     ∧ (∀ j, j < index →
          allocations (handleRemoveAllocation index st) !! j
          = allocations st !! j)
     ∧ (∀ j, index ≤ j →
          allocations (handleRemoveAllocation index st) !! j
          = allocations st !! S j)).
Proof.
  intros Hlen.
  assert (Hd : handleRemoveAllocation index st
               = setAllocations (delete index (allocations st)) st).
  { unfold handleRemoveAllocation.
    destruct (Nat.eqb_spec (length (allocations st)) 1) as [?|_]; first lia.
    by rewrite filter_index_delete, Nat.sub_0_r by lia. }
  rewrite Hd. split.
  - intros Hi. rewrite delete_past_end by done. apply state_eta.
  - intros Hi. simpl. split; [|split].
    + apply length_delete. by apply lookup_lt_is_Some.
    + intros j Hj. by apply list_lookup_delete_lt.
    + intros j Hj. by apply list_lookup_delete_ge.
Qed.

Lemma handleRemoveAllocation_positions_witness :
  2 ≤ length (allocations Examples.three_drafts)
  ∧ handleRemoveAllocation 7 Examples.three_drafts = Examples.three_drafts.
Proof.
  assert (H : 2 ≤ length (allocations Examples.three_drafts)) by (simpl; lia).
  split; [exact H|].
  apply (handleRemoveAllocation_positions 7 Examples.three_drafts H).
  simpl. lia.
Defined.

End EntryFormEdits.

(** ** The entry form: the derived total under edits *)

Section EntryFormTotal.

Import NewInvestment.

(** The additions of [totalAmount], over the amount strings. *)
Lemma totalAmount_amounts (l : list CategoryAllocation) (acc : Js.number) :
  fold_left
    (λ sum allocation,
       Js.add sum (Js.or (Js.parseFloat (amount allocation)) Js.zero))
    l acc
  = fold_left (λ sum s, Js.add sum (Js.or (Js.parseFloat s) Js.zero))
      (map amount l) acc.
Proof. revert acc. induction l as [|a l IH]; intros acc; simpl; auto. Qed.

Lemma total_stays_in_range (l : list string) (acc : Js.number) :
  Spec.in_range acc → acc ≠ S754_zero true →
  let t := fold_left (λ sum s, Js.add sum (Js.or (Js.parseFloat s) Js.zero)) l acc in
  Spec.in_range t ∧ t ≠ S754_zero true.
Proof.
  revert acc. induction l as [|s l IH]; intros acc Hr Hz; simpl; first done.
  apply IH.
  - apply add_in_range; [done | apply or_zero_in_range].
  - apply add_not_negative_zero; [done | apply or_zero_in_range | done].
Qed.

Lemma add_zero_r (x : Js.number) :
  x ≠ S754_zero true → Js.add x Js.zero = x.
Proof. by destruct x as [[|]| | |]. Qed.

(** X11. The derived total is never the negative zero, and a draft that is
    added, its amount being empty, leaves the total as it is. *)
Theorem totalAmount_after_add (st : State) :
  totalAmount st ≠ S754_zero true
  ∧ totalAmount (handleAddAllocation st) = totalAmount st.
Proof.
  unfold totalAmount.
  assert (H : totalAmount st ≠ S754_zero true).
  { unfold totalAmount. rewrite totalAmount_amounts. by apply total_stays_in_range. }
  split; first done.
  simpl. rewrite fold_left_app. simpl.
  change (Js.or (Js.parseFloat "") Js.zero) with Js.zero.
  by apply add_zero_r.
Qed.

(** X12. An edit of a category or of notes leaves the derived total as it
    is. *)
Theorem totalAmount_ignores_other_fields
    (index : nat) (field : Field) (value : string) (st st' : State) :
  field ≠ f_amount →
  handleAllocationChange index field value st = Some st' →
  totalAmount st' = totalAmount st.
Proof.
  intros Hf. unfold handleAllocationChange.
  destruct (allocations st !! index) as [a|] eqn:Ha; simpl; last done.
  intros [= <-]. unfold totalAmount. simpl. rewrite !totalAmount_amounts.
  f_equal.
  change (map amount (<[index:=with_field field value a]> (allocations st)))
    with (amount <$> <[index:=with_field field value a]> (allocations st)).
  rewrite list_fmap_insert.
  replace (amount (with_field field value a)) with (amount a)
    by (by destruct field).
  apply list_insert_id. by rewrite list_lookup_fmap, Ha.
Qed.

Lemma totalAmount_ignores_other_fields_witness :
  f_notes ≠ f_amount
  ∧ handleAllocationChange 2 f_notes "index fund" Examples.three_drafts
    = Some (mkState false None
              [mkAllocation "Stocks" "10" (Some "");
               mkAllocation "Bonds" "abc" None;
               mkAllocation "ETFs" "5.5" (Some "index fund")]
              (mkFormData "2025-03-08"))
  ∧ totalAmount
      (mkState false None
         [mkAllocation "Stocks" "10" (Some "");
          mkAllocation "Bonds" "abc" None;
          mkAllocation "ETFs" "5.5" (Some "index fund")]
         (mkFormData "2025-03-08"))
    = totalAmount Examples.three_drafts.
Proof.
  assert (H1 : f_notes ≠ f_amount) by done.
  assert (H2 : handleAllocationChange 2 f_notes "index fund" Examples.three_drafts
               = Some (mkState false None
                         [mkAllocation "Stocks" "10" (Some "");
                          mkAllocation "Bonds" "abc" None;
                          mkAllocation "ETFs" "5.5" (Some "index fund")]
                         (mkFormData "2025-03-08"))) by reflexivity.
  split; [exact H1|]. split; [exact H2|].
  apply (totalAmount_ignores_other_fields 2 f_notes "index fund" _ _ H1 H2).
Defined.

End EntryFormTotal.

(** ** The entry form: what a submission leaves behind *)

Section EntryFormOutcome.

Import NewInvestment.

Lemma nan_not_le (y : Js.number) : Js.le Js.NaN y = false.
Proof. done. Qed.

(** X13. Validation does not catch an amount that does not parse: with a
    user, drafts that have a category and a non-empty amount which reads as
    no number are all sent, each with NaN as its amount. *)
Theorem unparsable_amounts_are_sent (u : Supabase.User) env srv (st : State) :
  Forall (λ a, category a ≠ "" ∧ amount a ≠ ""
               ∧ Js.parseFloat (amount a) = Js.NaN) (allocations st) →
  let out := handleSubmit (Some u) env srv st in
  length (issued out) = length (allocations st)
  ∧ Forall (λ r, ∃ v, r = Supabase.Insert v ∧ Supabase.amount v = Js.NaN)
      (issued out).
Proof.
  intros Hall out. subst out.
  assert (Hvalid : existsb invalid (allocations st) = false).
  { induction Hall as [|a l (Hc & Ha & Hn) _ IH]; simpl; first done.
    rewrite IH, orb_false_r. unfold invalid. rewrite Hn, nan_not_le.
    destruct (category a); first done. by destruct (amount a). }
  destruct (handleSubmit_sent u env srv st Hvalid) as [-> _].
  split; first by rewrite !length_map.
  rewrite map_map. apply Forall_forall. intros r Hr.
  apply list_elem_of_In, in_map_iff in Hr as [a [<- Ha]].
  eexists. split; first done. simpl.
  rewrite Forall_forall in Hall. apply Hall. by apply list_elem_of_In.
Qed.

Lemma unparsable_amounts_are_sent_witness :
  Forall (λ a, category a ≠ "" ∧ amount a ≠ ""
               ∧ Js.parseFloat (amount a) = Js.NaN)
    [mkAllocation "Bonds" "abc" None]
  ∧ length (issued (handleSubmit (Some Examples.alice) Examples.all_succeed
                      Examples.alice_server
                      (mkState false None [mkAllocation "Bonds" "abc" None]
                         (mkFormData "2025-03-08")))) = 1.
Proof.
  assert (H : Forall (λ a, category a ≠ "" ∧ amount a ≠ ""
                           ∧ Js.parseFloat (amount a) = Js.NaN)
                [mkAllocation "Bonds" "abc" None]).
  { repeat constructor; done. }
  split; [exact H|].
  apply (unparsable_amounts_are_sent Examples.alice Examples.all_succeed
           Examples.alice_server
           (mkState false None [mkAllocation "Bonds" "abc" None]
              (mkFormData "2025-03-08")) H).
Defined.

(** X14. A submission never changes the drafts or the date. It ends in one
    of two ways: on the list view, with no error and not loading, or on the
    form with an error message. When it gets past the two checks the form
    is not loading at the end; when a check stops it, the loading flag is
    as before. *)
Theorem handleSubmit_outcome
    (user : option Supabase.User) env srv (st : State) :
  let out := handleSubmit user env srv st in
  allocations (state out) = allocations st
  ∧ formData (state out) = formData st
  ∧ ((navigated out = Some "/dashboard" ∧ error (state out) = None
      ∧ loading (state out) = false)
     ∨ (navigated out = None ∧ is_Some (error (state out))))
  ∧ (is_Some user → existsb invalid (allocations st) = false →
     loading (state out) = false)
  ∧ (user = None ∨ existsb invalid (allocations st) = true →
     loading (state out) = loading st).
Proof.
  simpl. unfold handleSubmit. destruct user as [u|]; simpl.
  - destruct (existsb invalid (allocations st)) eqn:Hvalid; simpl.
    + split; [done|]. split; [done|]. split; [right; eauto|]. split; done.
    + destruct (Supabase.insert_all _ _ _ _) as [srv' results].
      destruct (filter _ results); simpl.
      * split; [done|]. split; [done|]. split; [by left|].
        split; [done | by intros [|]].
      * split; [done|]. split; [done|]. split; [right; eauto|].
        split; [done | by intros [|]].
  - split; [done|]. split; [done|]. split; [right; eauto|].
    split; [by intros [? ?] | done].
Qed.

End EntryFormOutcome.

(** ** The table under a submission *)

Section TableUnderSubmission.

Import NewInvestment.

Lemma insert_added fault new_id v srv :
  ∃ added,
    Supabase.investments (Supabase.insert fault new_id v srv).1
      = Supabase.investments srv ++ added
    ∧ Supabase.auth_uid (Supabase.insert fault new_id v srv).1
      = Supabase.auth_uid srv
    ∧ ((added = [Supabase.mkRow new_id v]
        ∧ Supabase.auth_uid srv = Some (Supabase.user_id v)
        ∧ Supabase.error (Supabase.insert fault new_id v srv).2 = None)
       ∨ (added = []
          ∧ is_Some (Supabase.error (Supabase.insert fault new_id v srv).2))).
Proof.
  unfold Supabase.insert. destruct fault as [e|]; simpl.
  - exists []. rewrite app_nil_r. eauto 6.
  - case_decide; simpl.
    + eexists. split; [done|]. split; [done|]. by left.
    + exists []. rewrite app_nil_r. eauto 6.
Qed.

(** What a batch adds: rows of its own requests, owned by the caller, as
    many as there are requests without the failed ones. *)
Lemma insert_all_added env k vs srv :
  ∃ added,
    Supabase.investments (Supabase.insert_all env k vs srv).1
      = Supabase.investments srv ++ added
    ∧ Supabase.auth_uid (Supabase.insert_all env k vs srv).1
      = Supabase.auth_uid srv
    ∧ Forall (λ r, Supabase.values r ∈ vs ∧ Spec.owned_by (Supabase.auth_uid srv) r)
        added
    ∧ length added
      + length (filter (λ r, is_Some (Supabase.error r))
                  (Supabase.insert_all env k vs srv).2)
      = length vs.
Proof.
  revert k srv. induction vs as [|v vs IH]; intros k srv.
  - exists []. simpl. by rewrite app_nil_r.
  - rewrite insert_all_cons. cbn zeta. cbn [fst snd].
    destruct (insert_added (Supabase.fault env k) (Supabase.gen_random_uuid env k)
                v srv) as (a1 & Hrows1 & Huid1 & Hcase).
    destruct (IH (S k) (Supabase.insert (Supabase.fault env k)
                          (Supabase.gen_random_uuid env k) v srv).1)
      as (a2 & Hrows2 & Huid2 & Hown & Hcount).
    exists (a1 ++ a2). rewrite Hrows2, Hrows1, Huid2, Huid1, app_assoc.
    rewrite Huid1 in Hown.
    split; [done|]. split; [done|]. split.
    + apply Forall_app. split.
      * destruct Hcase as [(-> & Hu & _) | (-> & _)]; last done.
        repeat constructor. done.
      * eapply Forall_impl; first exact Hown.
        intros r [? ?]. split; [by right | done].
    + rewrite length_app. destruct Hcase as [(-> & _ & He) | (-> & He)].
      * rewrite filter_cons_False by (rewrite He; by intros [? ?]).
        simpl. lia.
      * rewrite filter_cons_True by done. simpl. simpl in Hcount. lia.
Qed.

(** The outcome of [handleSubmit] past the checks, by the failed responses. *)
Lemma handleSubmit_navigated (u : Supabase.User) env srv (st : State) :
  existsb invalid (allocations st) = false →
  let vs := map (investment_of u (investmentDate (formData st))) (allocations st) in
  let failed := filter (λ r, is_Some (Supabase.error r))
                  (Supabase.insert_all env 0 vs srv).2 in
  navigated (handleSubmit (Some u) env srv st)
  = match failed with [] => Some "/dashboard" | _ => None end.
Proof.
  intros Hvalid. simpl. unfold handleSubmit. rewrite Hvalid.
  destruct (Supabase.insert_all _ _ _ _) as [srv' results]. simpl.
  by destruct (filter _ results).
Qed.

Lemma handleSubmit_server (user : option Supabase.User) env srv (st : State) :
  server (handleSubmit user env srv st) = srv
  ∨ ∃ u, user = Some u
         ∧ existsb invalid (allocations st) = false
         ∧ server (handleSubmit user env srv st)
           = (Supabase.insert_all env 0
                (map (investment_of u (investmentDate (formData st)))
                   (allocations st)) srv).1.
Proof.
  destruct user as [u|]; last by left.
  destruct (existsb invalid (allocations st)) eqn:Hvalid.
  - left. unfold handleSubmit. by rewrite Hvalid.
  - right. exists u. split; [done|]. split; [done|].
    by destruct (handleSubmit_sent u env srv st Hvalid) as [_ ->].
Qed.

(** X15. A submission only appends to the table, and only rows that belong
    both to the user of the form and to the caller of the service; the
    caller stays the same. It never stores a row for anyone else. *)
Theorem submission_stores_own_rows_only
    (user : option Supabase.User) env srv (st : State) :
  let out := handleSubmit user env srv st in
  Supabase.auth_uid (server out) = Supabase.auth_uid srv
  ∧ ∃ added,
      Supabase.investments (server out) = Supabase.investments srv ++ added
      ∧ Forall (λ r, Spec.owned_by (Supabase.auth_uid srv) r
                     ∧ Spec.owned_by (Supabase.id <$> user) r) added.
Proof.
  simpl. destruct (handleSubmit_server user env srv st) as [-> | (u & -> & _ & ->)].
  - split; [done|]. exists []. by rewrite app_nil_r.
  - destruct (insert_all_added env 0
                (map (investment_of u (investmentDate (formData st)))
                   (allocations st)) srv) as (added & Hrows & Huid & Hown & _).
    split; [done|]. exists added. split; [done|].
    eapply Forall_impl; first exact Hown.
    intros r [Hin Ho]. split; [done|].
    apply list_elem_of_In, in_map_iff in Hin as (a & Ha & _).
    unfold Spec.owned_by. simpl. by rewrite <- Ha.
Qed.

(** X16. When the user of the form is not the caller of the service, a
    submission stores nothing, and with at least one draft it does not
    navigate. *)
Theorem foreign_submission_stores_nothing
    (u : Supabase.User) env srv (st : State) :
  Supabase.auth_uid srv ≠ Some (Supabase.id u) →
  let out := handleSubmit (Some u) env srv st in
  Supabase.investments (server out) = Supabase.investments srv
  ∧ (allocations st ≠ [] → navigated out = None).
Proof.
  intros Hne out. subst out.
  destruct (existsb invalid (allocations st)) eqn:Hvalid.
  - unfold handleSubmit. by rewrite Hvalid.
  - destruct (handleSubmit_sent u env srv st Hvalid) as [_ ->].
    rewrite (handleSubmit_navigated u env srv st Hvalid).
    destruct (insert_all_added env 0
                (map (investment_of u (investmentDate (formData st)))
                   (allocations st)) srv) as (added & Hrows & _ & Hown & Hcount).
    assert (Hnil : added = []).
    { destruct added as [|r ?]; first done.
      apply Forall_cons in Hown as [[Hin Ho] _].
      apply list_elem_of_In, in_map_iff in Hin as (a & Ha & _).
      unfold Spec.owned_by in Ho. rewrite <- Ha in Ho. done. }
    subst added. rewrite Hrows, app_nil_r. split; first done.
    intros Hdrafts. simpl in Hcount. rewrite length_map in Hcount.
    destruct (filter _ _); last done.
    simpl in Hcount. by destruct (allocations st).
Qed.

Lemma foreign_submission_stores_nothing_witness :
  Supabase.auth_uid Examples.alice_server
    ≠ Some (Supabase.id (Supabase.mkUser "u-2" "bob@example.org"))
  ∧ Supabase.investments
      (server (handleSubmit (Some (Supabase.mkUser "u-2" "bob@example.org"))
                 Examples.all_succeed Examples.alice_server Examples.two_drafts))
    = Supabase.investments Examples.alice_server.
Proof.
  assert (H : Supabase.auth_uid Examples.alice_server
              ≠ Some (Supabase.id (Supabase.mkUser "u-2" "bob@example.org")))
    by done.
  split; [exact H|].
  apply (foreign_submission_stores_nothing _ Examples.all_succeed
           Examples.alice_server Examples.two_drafts H).
Defined.

(** X17. Past the checks every draft is accounted for: the rows the table
    gains and the responses that report an error add up to the number of
    drafts. *)
Theorem submission_accounts_for_every_draft
    (u : Supabase.User) env srv (st : State) :
  existsb invalid (allocations st) = false →
  let out := handleSubmit (Some u) env srv st in
  let results :=
    (Supabase.insert_all env 0
       (map (investment_of u (investmentDate (formData st))) (allocations st))
       srv).2 in
  length (Supabase.investments (server out))
  + length (filter (λ r, is_Some (Supabase.error r)) results)
  = length (Supabase.investments srv) + length (allocations st).
Proof.
  intros Hvalid out results. subst out results.
  destruct (handleSubmit_sent u env srv st Hvalid) as [_ ->].
  destruct (insert_all_added env 0
              (map (investment_of u (investmentDate (formData st)))
                 (allocations st)) srv) as (added & -> & _ & _ & Hcount).
  rewrite length_app, length_map in *. lia.
Qed.

Lemma submission_accounts_for_every_draft_witness :
  existsb invalid (allocations Examples.two_drafts) = false
  ∧ length (Supabase.investments
              (server (handleSubmit (Some Examples.alice) Examples.second_fails
                         Examples.alice_server Examples.two_drafts)))
    + length (filter (λ r, is_Some (Supabase.error r))
                (Supabase.insert_all Examples.second_fails 0
                   (map (investment_of Examples.alice "2025-03-08")
                      (allocations Examples.two_drafts))
                   Examples.alice_server).2)
    = 0 + 2.
Proof.
  assert (H : existsb invalid (allocations Examples.two_drafts) = false)
    by (vm_compute; reflexivity).
  split; [exact H|].
  apply (submission_accounts_for_every_draft Examples.alice Examples.second_fails
           Examples.alice_server Examples.two_drafts H).
Defined.

(** X18. On the table, deleting the row that was just inserted, by its
    key, gives back the table as it was, provided the key was new. *)
Theorem insert_then_delete (new_id : string) (v : Supabase.Values)
    (srv : Supabase.Server) :
  Supabase.auth_uid srv = Some (Supabase.user_id v) →
  Forall (λ r, Supabase.row_id r ≠ new_id) (Supabase.investments srv) →
  (Supabase.delete_eq_id None new_id (Supabase.insert None new_id v srv).1).1
  = srv.
Proof.
  intros Huid Hnew. unfold Supabase.insert, Supabase.delete_eq_id.
  rewrite decide_True by done. simpl.
  rewrite filter_app, filter_cons_False, filter_nil, app_nil_r
    by (simpl; intros Hn; by apply Hn).
  rewrite filter_others; first by destruct srv.
  eapply Forall_impl; first exact Hnew. intros r Hr [? _]. done.
Qed.

Lemma insert_then_delete_witness :
  Supabase.auth_uid Examples.shared_server = Some "u-1"
  ∧ Forall (λ r, Supabase.row_id r ≠ "row-3")
      (Supabase.investments Examples.shared_server)
  ∧ (Supabase.delete_eq_id None "row-3"
       (Supabase.insert None "row-3"
          (Supabase.mkValues "u-1" (Js.of_Z 5) "Other" "2025-03-09" "")
          Examples.shared_server).1).1
    = Examples.shared_server.
Proof.
  assert (H1 : Supabase.auth_uid Examples.shared_server = Some "u-1") by reflexivity.
  assert (H2 : Forall (λ r, Supabase.row_id r ≠ "row-3")
                 (Supabase.investments Examples.shared_server))
    by (repeat constructor; done).
  split; [exact H1|]. split; [exact H2|].
  apply (insert_then_delete "row-3"
           (Supabase.mkValues "u-1" (Js.of_Z 5) "Other" "2025-03-09" "")
           Examples.shared_server H1 H2).
Defined.

End TableUnderSubmission.

(** ** The list view: deletions, the error, the first fetch *)

Section ListViewMore.

Import Dashboard.

Lemma map_filter_comm {A B : Type} (f : A → B) (P : B → Prop)
    `{HB : !∀ b, Decision (P b)} `{HA : !∀ a, Decision (P (f a))} (l : list A) :
  map f (filter (λ a, P (f a)) l) = filter P (map f l).
Proof.
  induction l as [|a l IH]; first done.
  simpl. destruct (decide (P (f a))) as [Hp|Hp].
  - rewrite !filter_cons_True by done. simpl. by rewrite IH.
  - by rewrite !filter_cons_False.
Qed.

Lemma deleteInvestment_confirmed (x : string) (srv : Supabase.Server) (st : State) :
  deleteInvestment None x srv st
  = mkOutcome
      (mkState (filter (λ item, id item ≠ x) (investments st))
         (loading st) (error st))
      (Supabase.mkServer (Supabase.auth_uid srv)
         (filter (λ r, ¬ (Supabase.row_id r = x
                          ∧ Supabase.auth_uid srv
                            = Some (Supabase.user_id (Supabase.values r))))
            (Supabase.investments srv)))
      [Supabase.DeleteEqId x] None.
Proof. done. Qed.

Lemma deleteInvestment_failed (e : Js.Thrown) (x : string)
    (srv : Supabase.Server) (st : State) :
  deleteInvestment (Some e) x srv st
  = mkOutcome
      (mkState (investments st) (loading st)
         (Some (message_or e "An error occurred")))
      srv [Supabase.DeleteEqId x] None.
Proof. done. Qed.

(** X19. Deleting an identifier that no item of the list has leaves the
    list as it is, whether the service confirms or fails. *)
Theorem delete_absent_id (fault : option Js.Thrown) (x : string)
    (srv : Supabase.Server) (st : State) :
  Forall (λ item, id item ≠ x) (investments st) →
  investments (state (deleteInvestment fault x srv st)) = investments st.
Proof.
  intros Habs. destruct fault as [e|].
  - by rewrite deleteInvestment_failed.
  - rewrite deleteInvestment_confirmed. simpl. by apply filter_others.
Qed.

Lemma delete_absent_id_witness :
  Forall (λ item, id item ≠ "row-7") (investments Examples.loaded)
  ∧ investments (state (deleteInvestment None "row-7" Examples.shared_server
                          Examples.loaded))
    = investments Examples.loaded.
Proof.
  assert (H : Forall (λ item, id item ≠ "row-7") (investments Examples.loaded))
    by (repeat constructor; done).
  split; [exact H|].
  apply (delete_absent_id None "row-7" Examples.shared_server Examples.loaded H).
Defined.

(** X20. Confirmed deletions can be made in either order, and a second
    confirmed deletion of the same identifier changes nothing: the list and
    the table end up the same. *)
Theorem confirmed_deletions_commute (x y : string)
    (srv : Supabase.Server) (st : State) :
  let then_ (z : string) (o : Outcome State) :=
    deleteInvestment None z (server o) (state o) in
  let first (z : string) := deleteInvestment None z srv st in
  state (then_ y (first x)) = state (then_ x (first y))
  ∧ server (then_ y (first x)) = server (then_ x (first y))
  ∧ state (then_ x (first x)) = state (first x)
  ∧ server (then_ x (first x)) = server (first x).
Proof.
  cbv beta zeta. rewrite !deleteInvestment_confirmed. simpl.
  rewrite !list_filter_filter. repeat split; f_equal.
  all: apply list_filter_iff; intros r; tauto.
Qed.

(** X21. While the list view shows the caller's rows, it goes on doing so
    through a deletion, confirmed or failed: the identifiers in the list
    are those of the caller's rows in the table, before and after. *)
Theorem delete_keeps_list_in_sync (fault : option Js.Thrown) (x : string)
    (srv : Supabase.Server) (st : State) :
  Spec.in_sync st srv →
  Spec.in_sync (state (deleteInvestment fault x srv st))
               (server (deleteInvestment fault x srv st)).
Proof.
  unfold Spec.in_sync. intros Hsync. destruct fault as [e|].
  - by rewrite deleteInvestment_failed.
  - rewrite deleteInvestment_confirmed.
    cbn [state server investments Supabase.investments Supabase.auth_uid].
    assert (Hlist : map id (filter (λ item, id item ≠ x) (investments st))
                    = filter (λ i, i ≠ x) (map id (investments st)))
      by apply (map_filter_comm id (λ i, i ≠ x)).
    assert (Hrows :
      filter (Spec.owned_by (Supabase.auth_uid srv))
        (filter (λ r, ¬ (Supabase.row_id r = x
                         ∧ Supabase.auth_uid srv
                           = Some (Supabase.user_id (Supabase.values r))))
           (Supabase.investments srv))
      = filter (λ r, Supabase.row_id r ≠ x)
          (filter (Spec.owned_by (Supabase.auth_uid srv))
             (Supabase.investments srv))).
    { rewrite !list_filter_filter. apply list_filter_iff.
      intros r. unfold Spec.owned_by. tauto. }
    assert (Hids :
      map Supabase.row_id
        (filter (λ r, Supabase.row_id r ≠ x)
           (filter (Spec.owned_by (Supabase.auth_uid srv))
              (Supabase.investments srv)))
      = filter (λ i, i ≠ x)
          (map Supabase.row_id
             (filter (Spec.owned_by (Supabase.auth_uid srv))
                (Supabase.investments srv))))
      by apply (map_filter_comm Supabase.row_id (λ i, i ≠ x)).
    rewrite Hlist, Hrows, Hids. by apply filter_Permutation.
Qed.

Lemma delete_keeps_list_in_sync_witness :
  Spec.in_sync Examples.loaded Examples.shared_server
  ∧ Spec.in_sync
      (state (deleteInvestment None "row-2" Examples.shared_server Examples.loaded))
      (server (deleteInvestment None "row-2" Examples.shared_server Examples.loaded)).
Proof.
  assert (H : Spec.in_sync Examples.loaded Examples.shared_server).
  { unfold Spec.in_sync. vm_compute. reflexivity. }
  split; [exact H|].
  apply (delete_keeps_list_in_sync None "row-2" Examples.shared_server
           Examples.loaded H).
Defined.

(** X22. The list view never clears its error: after a fetch or a
    deletion an error that was set is still set, and it is the very same
    one when the service reported no error. *)
Theorem dashboard_error_stays (st : State) (msg : string)
    (response : Supabase.Response (list Investment))
    (fault : option Js.Thrown) (x : string) (srv : Supabase.Server) :
  error st = Some msg →
  is_Some (error (fetchInvestments response st))
  ∧ is_Some (error (state (deleteInvestment fault x srv st)))
  ∧ (Supabase.error response = None →
     error (fetchInvestments response st) = Some msg)
  ∧ (fault = None →
     error (state (deleteInvestment fault x srv st)) = Some msg).
Proof.
  intros Hmsg. unfold fetchInvestments.
  destruct fault as [e|];
    rewrite ?deleteInvestment_failed, ?deleteInvestment_confirmed;
    destruct (Supabase.error response); simpl; rewrite ?Hmsg;
    (split; [by eexists|]); (split; [by eexists|]); split; done.
Qed.

Lemma dashboard_error_stays_witness :
  error (mkState [] false (Some "An error occurred")) = Some "An error occurred"
  ∧ is_Some (error (fetchInvestments (Supabase.mkResponse (Some []) None)
                      (mkState [] false (Some "An error occurred")))).
Proof.
  assert (H : error (mkState [] false (Some "An error occurred"))
              = Some "An error occurred") by reflexivity.
  split; [exact H|].
  apply (dashboard_error_stays _ _ (Supabase.mkResponse (Some []) None)
           None "row-1" Examples.shared_server H).
Defined.

(** X23. A fetch always ends the spinner, whatever the response and the
    state before. When the first fetch fails, the page has no rows and no
    totals row and shows the placeholder, with the error above it unless
    the error is an [Error] instance with an empty message; an error that
    is not an [Error] instance shows as "An error occurred". *)
Theorem first_fetch_failed
    (response : Supabase.Response (list Investment)) (st : State) :
  loading (fetchInvestments response st) = false
  ∧ render (fetchInvestments response st) ≠ Spinner
  ∧ ∀ e, Supabase.error response = Some e →
      ∃ banner,
        render (fetchInvestments response initial) = Page banner [] true None
        ∧ (banner = None ↔ Js.instanceof_Error e = true ∧ Js.message e = "")
        ∧ (Js.instanceof_Error e = false → banner = Some "An error occurred").
Proof.
  split; [|split].
  - unfold fetchInvestments. by destruct (Supabase.error response).
  - unfold fetchInvestments, render. by destruct (Supabase.error response).
  - intros e He. unfold fetchInvestments, render. rewrite He. simpl.
    unfold message_or. destruct e as [[|] [|c m]]; simpl; eexists;
      (split; [done|]); split; try done; try (split; [done | by intros [? ?]]).
    all: split; [done | by intros [_ ?]].
Qed.

Lemma first_fetch_failed_witness :
  Supabase.error (Supabase.mkResponse (A:=list Investment) None
                    (Some Examples.duplicate_key))
    = Some Examples.duplicate_key
  ∧ render (fetchInvestments
              (Supabase.mkResponse None (Some Examples.duplicate_key)) initial)
    = Page (Some "An error occurred") [] true None.
Proof.
  assert (H : Supabase.error (Supabase.mkResponse (A:=list Investment) None
                                (Some Examples.duplicate_key))
              = Some Examples.duplicate_key) by reflexivity.
  split; [exact H|].
  destruct (first_fetch_failed
              (Supabase.mkResponse None (Some Examples.duplicate_key)) initial)
    as (_ & _ & Hfail).
  destruct (Hfail Examples.duplicate_key H) as (banner & -> & _ & Hb).
  by rewrite Hb.
Defined.

End ListViewMore.

(** ** The form with a single investment *)

Section SimpleForm.

(** X24. The simple form sends nothing without a user. With a user it
    sends one create request whatever the fields hold, and then either
    navigates to the list view, with no error, exactly when the response
    reports none, or stays with an error message; the fields are never
    changed and the form is not loading at the end. *)
Theorem simple_handleSubmit_outcome
    (user : option Supabase.User) env srv (st : SimpleNewInvestment.State) :
  let out := SimpleNewInvestment.handleSubmit user env srv st in
  SimpleNewInvestment.formData (state out) = SimpleNewInvestment.formData st
  ∧ (user = None →
     issued out = [] ∧ server out = srv ∧ navigated out = None
     ∧ SimpleNewInvestment.error (state out)
       = Some "You must be logged in to add investments")
  ∧ (∀ u, user = Some u →
       let v := SimpleNewInvestment.investment_of u
                  (SimpleNewInvestment.formData st) in
       let response :=
         (Supabase.insert (Supabase.fault env 0) (Supabase.gen_random_uuid env 0)
            v srv).2 in
       issued out = [Supabase.Insert v]
       ∧ SimpleNewInvestment.loading (state out) = false
       ∧ (navigated out = Some "/dashboard" ↔ Supabase.error response = None)
       ∧ ((navigated out = Some "/dashboard"
           ∧ SimpleNewInvestment.error (state out) = None)
          ∨ (navigated out = None
             ∧ is_Some (SimpleNewInvestment.error (state out))))).
Proof.
  simpl. unfold SimpleNewInvestment.handleSubmit.
  destruct user as [u|]; simpl.
  - split.
    { destruct (Supabase.insert _ _ _ srv) as [srv' r].
      by destruct (Supabase.error r). }
    split; [done|]. intros ? [= <-].
    destruct (Supabase.insert _ _ _ srv) as [srv' r]. simpl.
    destruct (Supabase.error r); simpl.
    + split; [done|]. split; [done|]. split; [done|]. right. eauto.
    + split; [done|]. split; [done|]. split; [done|]. by left.
  - split; [done|]. split; [done|]. by intros u.
Qed.

Lemma notes_round (n : string) : Js.or_string (Some n) "" = n.
Proof. by destruct n. Qed.

(** X25. On one draft that passes the validation of the entry form, the
    two forms do the same: they send the same request, leave the table in
    the same state and navigate alike. *)
Theorem forms_agree_on_one_valid_draft
    (u : Supabase.User) env srv (d : SimpleNewInvestment.FormData)
    (loading : bool) (error : option string) :
  let a := NewInvestment.mkAllocation (SimpleNewInvestment.category d)
             (SimpleNewInvestment.amount d)
             (Some (SimpleNewInvestment.notes d)) in
  let simple :=
    SimpleNewInvestment.handleSubmit (Some u) env srv
      (SimpleNewInvestment.mkState loading error d) in
  let multi :=
    NewInvestment.handleSubmit (Some u) env srv
      (NewInvestment.mkState loading error [a]
         (NewInvestment.mkFormData (SimpleNewInvestment.investmentDate d))) in
  Spec.valid_draft a →
  issued simple = issued multi
  ∧ server simple = server multi
  ∧ navigated simple = navigated multi
  ∧ (SimpleNewInvestment.error (state simple) = None
     ↔ NewInvestment.error (state multi) = None).
Proof.
  intros a simple multi Hvalid.
  assert (Hv : NewInvestment.invalid a = false) by by apply valid_not_invalid.
  subst simple multi.
  unfold SimpleNewInvestment.handleSubmit, NewInvestment.handleSubmit.
  cbn [NewInvestment.allocations existsb]. rewrite Hv. cbn [orb].
  cbn [map NewInvestment.allocations NewInvestment.formData
       NewInvestment.investmentDate SimpleNewInvestment.formData].
  unfold Supabase.insert_all.
  assert (Heq : NewInvestment.investment_of u (SimpleNewInvestment.investmentDate d) a
                = SimpleNewInvestment.investment_of u d).
  { unfold NewInvestment.investment_of, SimpleNewInvestment.investment_of, a.
    cbn [NewInvestment.notes NewInvestment.amount NewInvestment.category].
    by rewrite notes_round. }
  rewrite Heq.
  destruct (Supabase.insert _ _ _ srv) as [srv' r].
  destruct (Supabase.error r) as [e|] eqn:He.
  - rewrite filter_cons_True by (rewrite He; by eexists).
    simpl. repeat split; done.
  - rewrite filter_cons_False by (rewrite He; by intros [? ?]).
    rewrite filter_nil. simpl. repeat split; done.
Qed.

Lemma forms_agree_on_one_valid_draft_witness :
  Spec.valid_draft (NewInvestment.mkAllocation "Stocks" "100" (Some "monthly"))
  ∧ issued (SimpleNewInvestment.handleSubmit (Some Examples.alice)
              Examples.all_succeed Examples.alice_server
              (SimpleNewInvestment.mkState false None
                 (SimpleNewInvestment.mkFormData "100" "Stocks" "2025-03-08"
                    "monthly")))
    = issued (NewInvestment.handleSubmit (Some Examples.alice)
                Examples.all_succeed Examples.alice_server
                (NewInvestment.mkState false None
                   [NewInvestment.mkAllocation "Stocks" "100" (Some "monthly")]
                   (NewInvestment.mkFormData "2025-03-08"))).
Proof.
  assert (H : Spec.valid_draft
                (NewInvestment.mkAllocation "Stocks" "100" (Some "monthly"))).
  { split; [done|]. split; [done|]. vm_compute. reflexivity. }
  split; [exact H|].
  apply (forms_agree_on_one_valid_draft Examples.alice Examples.all_succeed
           Examples.alice_server
           (SimpleNewInvestment.mkFormData "100" "Stocks" "2025-03-08" "monthly")
           false None H).
Defined.

(** X26. The simple form has no validation of its own: on fields for which
    the entry form refuses to submit, it still sends its request. *)
Theorem simple_form_sends_what_entry_form_rejects
    (u : Supabase.User) env srv (d : SimpleNewInvestment.FormData)
    (loading : bool) (error : option string) :
  let a := NewInvestment.mkAllocation (SimpleNewInvestment.category d)
             (SimpleNewInvestment.amount d)
             (Some (SimpleNewInvestment.notes d)) in
  Spec.offending_draft a →
  issued (NewInvestment.handleSubmit (Some u) env srv
            (NewInvestment.mkState loading error [a]
               (NewInvestment.mkFormData (SimpleNewInvestment.investmentDate d))))
  = []
  ∧ issued (SimpleNewInvestment.handleSubmit (Some u) env srv
              (SimpleNewInvestment.mkState loading error d))
    = [Supabase.Insert (SimpleNewInvestment.investment_of u d)].
Proof.
  intros a Hoff. split.
  - unfold NewInvestment.handleSubmit. cbn [NewInvestment.allocations existsb].
    apply invalid_offending in Hoff. by rewrite Hoff.
  - unfold SimpleNewInvestment.handleSubmit. simpl.
    destruct (Supabase.insert _ _ _ srv) as [srv' r].
    by destruct (Supabase.error r).
Qed.

Lemma simple_form_sends_what_entry_form_rejects_witness :
  Spec.offending_draft (NewInvestment.mkAllocation "" "" (Some ""))
  ∧ issued (SimpleNewInvestment.handleSubmit (Some Examples.alice)
              Examples.all_succeed Examples.alice_server
              (SimpleNewInvestment.initial "2025-03-08"))
    = [Supabase.Insert (Supabase.mkValues "u-1" Js.NaN "" "2025-03-08" "")].
Proof.
  assert (H : Spec.offending_draft (NewInvestment.mkAllocation "" "" (Some "")))
    by (by left).
  split; [exact H|].
  apply (simple_form_sends_what_entry_form_rejects Examples.alice
           Examples.all_succeed Examples.alice_server
           (SimpleNewInvestment.mkFormData "" "" "2025-03-08" "") false None H).
Defined.

End SimpleForm.
